(** * music-convertor-website: the route handlers of [index.js]

    A shallow embedding of Section 4 ("API Routes") of [src/index.js]:
    the Express route table, the authentication middleware and the
    handlers for registration, login, logout, discover and profile.

    What the middleware of Sections 1-3 hands to the routes is part of
    the request context: the parsed body ([req.body.username],
    [req.body.password]) and the session object that [express-session]
    loads for [req.sessionID].  A request that [express.static]
    answers with a file never reaches the routes and is not a request
    of this model.  The libraries the handlers call ([pg-promise],
    [bcryptjs], [express-session], [res.render]) are modelled by what
    the handlers observe of them: a value, or a thrown error. *)

From Stdlib Require Import ZArith Ascii String.
From stdpp Require Import base gmap strings list.

Local Open Scope Z_scope.
Local Open Scope string_scope.

(** ** Data *)

(** A row of the [users] table, as [SELECT * FROM users] returns it. *)
Record UserRow := mkUserRow { username : string; password : string }.

(** The data the application keeps in a session: [req.session.user]. *)
Record SessionData := mkSession { user : option UserRow }.

#[global] Instance UserRow_eq_dec : EqDecision UserRow.
Proof. solve_decision. Defined.

#[global] Instance SessionData_eq_dec : EqDecision SessionData.
Proof. solve_decision. Defined.

(** The session [express-session] makes for a request whose id is not in
    the store. *)
Definition new_session : SessionData := {| user := None |}.

Inductive Method := GET | HEAD | POST | PUT | DELETE | PATCH | OPTIONS.

#[global] Instance Method_eq_dec : EqDecision Method.
Proof. solve_decision. Defined.

(** An incoming request.  A body field that the client did not send is
    [undefined] in JavaScript, [None] here. *)
Record Request := mkRequest {
  method : Method;
  path : string;
  body_username : option string;
  body_password : option string;
  sessionID : string
}.

(** Values of the object literals passed to [res.render]. *)
Inductive Value := VStr (s : string) | VBool (b : bool).

(** What a handler sends: [res.redirect], [res.render] or [res.send]. *)
Inductive Reply :=
| Redirect (location : string)
| Render (view : string) (locals : list (string * Value))
| Send (text : string).

(** What the outside world does during one request: the salt [bcryptjs]
    draws, and the errors the libraries may raise. *)
Record Env := mkEnv {
  salt : string;
  db_error : option string;
  hash_error : option string;
  compare_error : option string;
  destroy_error : option string
}.

(** The state a handler works on: the [users] table, the session store,
    [req.session] ([None] once destroyed) and the [res] object. *)
Record Ctx := mkCtx {
  users : list UserRow;
  store : gmap string SessionData;
  session : option SessionData;
  statusCode : Z;
  sent : option Reply
}.

(** The password hasher: [bcrypt.hash(password, rounds)] with the salt
    it drew, and [bcrypt.compare(password, hash)]. *)
Class Hasher := {
  hash_fn : string -> Z -> string -> string;
  compare_fn : string -> string -> bool
}.

(** ** The handler monad: state, and JavaScript exceptions *)

Inductive Result (A : Type) := Ok (a : A) | Throw (e : string).
Arguments Ok {A} a.
Arguments Throw {A} e.

Definition M (A : Type) : Type := Ctx -> Ctx * Result A.

Definition ret {A} (a : A) : M A := fun c => (c, Ok a).

Definition throw {A} (e : string) : M A := fun c => (c, Throw e).

Definition bind {A B} (m : M A) (k : A -> M B) : M B := fun c =>
  match m c with
  | (c', Ok a) => k a c'
  | (c', Throw e) => (c', Throw e)
  end.

(** [try { body } catch (error) { handler }]: the state changes made
    before the throw stay. *)
Definition try_catch {A} (body : M A) (handler : string -> M A) : M A := fun c =>
  match body c with
  | (c', Ok a) => (c', Ok a)
  | (c', Throw e) => handler e c'
  end.

Declare Scope js_scope.
Delimit Scope js_scope with js.
Notation "x <- m ;; k" := (bind m (fun x => k))
  (at level 100, m at next level, k at level 200, right associativity) : js_scope.
Notation "m ;; k" := (bind m (fun _ => k))
  (at level 100, k at level 200, right associativity) : js_scope.
Local Open Scope js_scope.

(** ** Path matching of the Express router *)

Definition to_lower (c : ascii) : ascii :=
  let n := nat_of_ascii c in
  if ((65 <=? n) && (n <=? 90))%nat then ascii_of_nat (n + 32) else c.

Fixpoint lower (s : string) : string :=
  match s with
  | EmptyString => EmptyString
  | String c s' => String (to_lower c) (lower s')
  end.

Definition ends_with_slash (s : string) : bool :=
  match String.get (String.length s - 1) s with
  | Some c => Ascii.eqb c "/"
  | None => false
  end.

(** A route path matches without regard to case, with or without one
    trailing slash (the router is neither case sensitive nor strict). *)
Definition route_match (pat p : string) : bool :=
  if ends_with_slash pat
  then String.eqb (lower p) pat
       || String.eqb (lower p) (String.substring 0 (String.length pat - 1) pat)
  else String.eqb (lower p) pat || String.eqb (lower p) (pat +:+ "/").

(** [app.use(path, ...)] matches the path and everything below it;
    [app.use(...)] without a path matches every request. *)
Definition use_match (pat p : string) : bool :=
  String.eqb pat "/" || String.eqb (lower p) pat || String.prefix (pat +:+ "/") (lower p).

(** [app.get] also answers HEAD requests. *)
Definition method_match (m r : Method) : bool :=
  bool_decide (m = r) || (bool_decide (m = GET) && bool_decide (r = HEAD)).

(** ** The [res] object *)

(** A reply leaves with the status code set so far; a second reply on
    the same response raises. *)
Definition respond (r : Reply) : M unit := fun c =>
  match sent c with
  | Some _ => (c, Throw "Cannot set headers after they are sent to the client")
  | None => (mkCtx (users c) (store c) (session c) (statusCode c) (Some r), Ok tt)
  end.

Definition res_status (code : Z) : M unit := fun c =>
  (mkCtx (users c) (store c) (session c) code (sent c), Ok tt).

Definition res_send (text : string) : M unit := respond (Send text).

Definition res_render (view : string) (locals : list (string * Value)) : M unit :=
  respond (Render view locals).

Definition res_redirect (location : string) : M unit :=
  res_status 302 ;; respond (Redirect location).

(** [console.error] writes to the server log only. *)
Definition console_error (label error : string) : M unit := ret tt.

(** ** The [users] table *)

Definition select_by_username (name : option string) (rows : list UserRow) : list UserRow :=
  match name with
  | None => []
  | Some n => List.filter (fun row => String.eqb (username row) n) rows
  end.

(** [db.oneOrNone('SELECT * FROM users WHERE username = $1', [name])]:
    [null] for no row, the row for one, rejected for more than one or
    when the database cannot be reached. *)
Definition db_oneOrNone (env : Env) (name : option string) : M (option UserRow) := fun c =>
  match db_error env with
  | Some e => (c, Throw e)
  | None =>
    match select_by_username name (users c) with
    | [] => (c, Ok None)
    | [row] => (c, Ok (Some row))
    | _ => (c, Throw "Multiple rows were not expected.")
    end
  end.

(** Modelled from the spec: the schema of the [users] table, whose DDL is
    not part of [index.js].  [username] is the unique primary identifier
    of a row, so the table takes a row only if it has a username and no
    row has that username yet. *)
Definition users_insert (name : option string) (hash : string) (rows : list UserRow)
  : Result (list UserRow) :=
  match name with
  | None => Throw "null value in column username violates not-null constraint"
  | Some n =>
    match select_by_username (Some n) rows with
    | [] => Ok (rows ++ [mkUserRow n hash])%list
    | _ => Throw "duplicate key value violates unique constraint"
    end
  end.

(** [db.none('INSERT INTO users(username, password) VALUES($1, $2)',
    [name, hash])]. *)
Definition db_none_insert (env : Env) (name : option string) (hash : string) : M unit := fun c =>
  match db_error env with
  | Some e => (c, Throw e)
  | None =>
    match users_insert name hash (users c) with
    | Ok rows => (mkCtx rows (store c) (session c) (statusCode c) (sent c), Ok tt)
    | Throw e => (c, Throw e)
    end
  end.

(** ** The session object *)

(** [req.session.user]. *)
Definition req_session_user : M (option UserRow) := fun c =>
  match session c with
  | Some s => (c, Ok (user s))
  | None => (c, Throw "Cannot read properties of undefined (reading 'user')")
  end.

(** [req.session.user = row]. *)
Definition set_req_session_user (row : UserRow) : M unit := fun c =>
  match session c with
  | Some _ =>
    (mkCtx (users c) (store c) (Some (mkSession (Some row))) (statusCode c) (sent c), Ok tt)
  | None => (c, Throw "Cannot set properties of undefined (setting 'user')")
  end.

(** [req.session.save()]: writes the session to the store under the
    request's session id. *)
Definition req_session_save (req : Request) : M unit := fun c =>
  match session c with
  | Some s =>
    (mkCtx (users c) (<[sessionID req := s]> (store c)) (session c) (statusCode c) (sent c),
     Ok tt)
  | None => (c, Throw "Cannot read properties of undefined (reading 'save')")
  end.

(** [req.session.destroy(callback)]: unsets [req.session], removes the
    entry from the store and calls back; a failing store keeps the entry
    and calls back with the error. *)
Definition req_session_destroy (env : Env) (req : Request)
    (callback : option string -> M unit) : M unit := fun c =>
  match session c with
  | Some _ =>
    match destroy_error env with
    | Some e => callback (Some e) (mkCtx (users c) (store c) None (statusCode c) (sent c))
    | None =>
      callback None
        (mkCtx (users c) (delete (sessionID req) (store c)) None (statusCode c) (sent c))
    end
  | None => (c, Throw "Cannot read properties of undefined (reading 'destroy')")
  end.

Section Handlers.

Context `{hasher : Hasher}.

(** ** [bcryptjs] *)

(** [bcrypt.hash(password, rounds)]: rejected when the password is not a
    string. *)
Definition bcrypt_hash (env : Env) (pw : option string) (rounds : Z) : M string :=
  match hash_error env, pw with
  | Some e, _ => throw e
  | None, None => throw "Illegal arguments: undefined, number"
  | None, Some p => ret (hash_fn p rounds (salt env))
  end.

(** [bcrypt.compare(password, hash)]. *)
Definition bcrypt_compare (env : Env) (pw : option string) (hash : string) : M bool :=
  match compare_error env, pw with
  | Some e, _ => throw e
  | None, None => throw "Illegal arguments: undefined, string"
  | None, Some p => ret (compare_fn p hash)
  end.

(** ** Section 4: the routes *)

(** [app.get('/', ...)] *)
Definition get_root (env : Env) (req : Request) : M unit :=
  res_redirect "/login".

(** [app.get('/login', ...)] *)
Definition get_login (env : Env) (req : Request) : M unit :=
  res_render "pages/login" [].

(** [app.get('/register', ...)] *)
Definition get_register (env : Env) (req : Request) : M unit :=
  res_render "pages/register" [].

(** [app.post('/register', ...)] *)
Definition post_register (env : Env) (req : Request) : M unit :=
  try_catch
    (hash <- bcrypt_hash env (body_password req) 10 ;;
     db_none_insert env (body_username req) hash ;;
     res_redirect "/login")
    (fun error =>
     console_error "Registration error:" error ;;
     res_redirect "/register").

(** [app.post('/login', ...)] *)
Definition post_login (env : Env) (req : Request) : M unit :=
  try_catch
    (found <- db_oneOrNone env (body_username req) ;;
     match found with
     | None =>
       let message := "Username not found. Please register." in
       res_render "pages/login" [("message", VStr message); ("error", VBool true)]
     | Some row =>
       matched <- bcrypt_compare env (body_password req) (password row) ;;
       if negb matched then
         let message := "Incorrect username or password." in
         res_render "login" [("message", VStr message); ("error", VBool true)]
       else
         set_req_session_user row ;;
         req_session_save req ;;
         res_redirect "/discover"
     end)
    (fun error =>
     console_error "Login error:" error ;;
     let message := "An error occurred during login. Please try again." in
     res_render "pages/login" [("message", VStr message); ("error", VBool true)]).

(** [const auth = (req, res, next) => ...] *)
Definition auth (env : Env) (req : Request) (next : M unit) : M unit :=
  u <- req_session_user ;;
  match u with
  | None => res_redirect "/login"
  | Some _ => next
  end.

(** [app.get('/discover', ...)] *)
Definition get_discover (env : Env) (req : Request) : M unit :=
  res_render "pages/discover" [].

(** [app.get('/logout', ...)] *)
Definition get_logout (env : Env) (req : Request) : M unit :=
  req_session_destroy env req (fun err =>
    match err with
    | Some e =>
      console_error "Session destruction error:" e ;;
      res_status 500 ;; res_send "Could not log out."
    | None =>
      res_render "pages/logout"
        [("message", VStr "Logged out Successfully"); ("error", VBool false)]
    end).

(** [app.get('/profile', ...)] *)
Definition get_profile (env : Env) (req : Request) : M unit :=
  u <- req_session_user ;;
  match u with
  | None => res_status 401 ;; res_send "Not authenticated"
  | Some row =>
    try_catch
      (res_render "pages/profile" [("username", VStr (username row))])
      (fun err =>
       console_error "Profile error:" err ;;
       res_status 500 ;; res_send "Internal Server Error")
  end.

(** ** The router *)

Inductive Layer :=
| Route (m : Method) (pat : string) (handle : Env -> Request -> M unit)
| Use (pat : string) (handle : Env -> Request -> M unit -> M unit).

(** The layers in the order [index.js] registers them. *)
Definition app_stack : list Layer :=
  [ Route GET "/" get_root;
    Route GET "/login" get_login;
    Route GET "/register" get_register;
    Route POST "/register" post_register;
    Route POST "/login" post_login;
    Use "/" auth;
    Use "/discover" auth;
    Route GET "/discover" get_discover;
    Route GET "/logout" get_logout;
    Route GET "/profile" get_profile ].

(** The first layer that matches runs; a middleware gets the rest of the
    stack as its [next].  A request that no layer answers is left to the
    framework's final handler.  (For an OPTIONS request whose path has
    routes of other methods the router itself answers with the list of
    those methods; the model leaves that reply out, and the properties
    below that speak of an unanswered request exclude OPTIONS.) *)
Fixpoint dispatch (stack : list Layer) (env : Env) (req : Request) : M unit :=
  match stack with
  | [] => ret tt
  | Route m pat handle :: rest =>
    if method_match m (method req) && route_match pat (path req)
    then handle env req
    else dispatch rest env req
  | Use pat handle :: rest =>
    if use_match pat (path req)
    then handle env req (dispatch rest env req)
    else dispatch rest env req
  end.

(** ** The server *)

Record Server := mkServer {
  table : list UserRow;
  sessions : gmap string SessionData
}.

Inductive Response :=
| Replied (status : Z) (r : Reply)
| Unanswered
| Crashed (e : string).

(** [express-session] loads the session of the request's id, or makes a
    new one. *)
Definition load_session (req : Request) (srv : Server) : SessionData :=
  default new_session (sessions srv !! sessionID req).

(** When the response ends, a session that still exists and was changed
    by the handler is written to the store ([saveUninitialized] and
    [resave] are off: an untouched session is not). *)
Definition end_of_response (req : Request) (loaded : SessionData) (c : Ctx)
  : gmap string SessionData :=
  match session c with
  | Some s => if decide (s = loaded) then store c else <[sessionID req := s]> (store c)
  | None => store c
  end.

Definition response_of (c : Ctx) (r : Result unit) : Response :=
  match r, sent c with
  | _, Some reply => Replied (statusCode c) reply
  | Ok _, None => Unanswered
  | Throw e, None => Crashed e
  end.

(** One request against the server. *)
Definition app_handle (env : Env) (req : Request) (srv : Server) : Response * Server :=
  let loaded := load_session req srv in
  let c0 := mkCtx (table srv) (sessions srv) (Some loaded) 200 None in
  let '(c1, r) := dispatch app_stack env req c0 in
  (response_of c1 r, mkServer (users c1) (end_of_response req loaded c1)).

(** A sequence of requests, each with what the world does during it. *)
Fixpoint run (trace : list (Env * Request)) (srv : Server) : list Response * Server :=
  match trace with
  | [] => ([], srv)
  | (env, req) :: rest =>
    let '(resp, srv1) := app_handle env req srv in
    let '(resps, srv2) := run rest srv1 in
    (resp :: resps, srv2)
  end.

End Handlers.

(** ** A small world to run the model in *)

(** A stand-in for the hasher: the hash is the salt, a separator and
    the password; a password verifies against a hash that ends in it. *)
Definition demo_hasher : Hasher := {|
  hash_fn := fun pw rounds salt => salt +:+ "$" +:+ pw;
  compare_fn := fun pw hash =>
    String.eqb (String.substring (String.length hash - String.length pw) (String.length pw) hash) pw
|}.

(** Nothing fails. *)
Definition calm : Env := mkEnv "salt" None None None None.

Definition empty_server : Server := mkServer [] ∅.

Definition alice_row : UserRow := mkUserRow "alice" "salt$pw1".

Definition alice_server : Server := mkServer [alice_row] ∅.

Definition alice_logged_in : Server :=
  mkServer [alice_row] {[ "s1" := mkSession (Some alice_row) ]}.

Definition form (m : Method) (p : string) (u pw : option string) (sid : string) : Request :=
  mkRequest m p u pw sid.

(** The session's user record of a client, if any. *)
Definition session_user (srv : Server) (sid : string) : option UserRow :=
  sessions srv !! sid ≫= user.

(** The layers registered after [app.use(auth)]. *)
Definition gated_stack `{hasher : Hasher} : list Layer :=
  [ Use "/discover" auth;
    Route GET "/discover" get_discover;
    Route GET "/logout" get_logout;
    Route GET "/profile" get_profile ].

(** Does a route registered before [app.use(auth)] take the request? *)
Definition is_public (req : Request) : bool :=
  (method_match GET (method req) && route_match "/" (path req))
  || (method_match GET (method req) && route_match "/login" (path req))
  || (method_match GET (method req) && route_match "/register" (path req))
  || (method_match POST (method req) && route_match "/register" (path req))
  || (method_match POST (method req) && route_match "/login" (path req)).

(** The context a request starts in. *)
Definition initial_ctx (req : Request) (srv : Server) : Ctx :=
  mkCtx (table srv) (sessions srv) (Some (load_session req srv)) 200 None.

(** A login that goes through: a POST [/login] whose username has one
    row and whose password verifies against the row's hash. *)
Definition login_succeeds `{hasher : Hasher} (env : Env) (req : Request) (srv : Server) : Prop :=
  method req = POST
  /\ route_match "/login" (path req) = true
  /\ exists row pw,
       db_error env = None
       /\ select_by_username (body_username req) (table srv) = [row]
       /\ compare_error env = None
       /\ body_password req = Some pw
       /\ compare_fn pw (password row) = true.

(** Some request of the trace is a login that goes through for the
    client [sid], at the state of the server it meets. *)
Fixpoint logs_in `{hasher : Hasher} (sid : string) (trace : list (Env * Request))
    (srv : Server) : Prop :=
  match trace with
  | [] => False
  | (env, req) :: rest =>
    (sessionID req = sid /\ login_succeeds env req srv)
    \/ logs_in sid rest (app_handle env req srv).2
  end.

(** What of a session may show: the username of its user record. *)
Definition public_view (s : SessionData) : option string := username <$> user s.

(** Two servers that differ at most in the password hashes held in
    their sessions. *)
Definition same_public (srv1 srv2 : Server) : Prop :=
  table srv1 = table srv2
  /\ forall sid,
       public_view <$> (sessions srv1 !! sid) = public_view <$> (sessions srv2 !! sid).

(** ** Replies and requests the properties name *)

(** The body [res.redirect] writes for a client whose [Accept] header
    selects plain text: the status message and the address; a HEAD
    request gets no body.  (A client that selects HTML gets the same
    sentence as an HTML paragraph, and one that accepts neither an empty
    body; these two are not modelled.) *)
Definition redirect_text_body (m : Method) (address : string) : string :=
  if bool_decide (m = HEAD) then "" else "Found. Redirecting to " +:+ address.

(** The body that reaches such a client: that of a redirect, or the text
    given to [res.send]; the output of the template engine is not
    modelled. *)
Definition body_for_text_client (req : Request) (resp : Response) : option string :=
  match resp with
  | Replied _ (Redirect address) => Some (redirect_text_body (method req) address)
  | Replied _ (Send text) => Some (if bool_decide (method req = HEAD) then "" else text)
  | _ => None
  end.

(** The reply of the login handler's [catch] block. *)
Definition login_failure_page : Reply :=
  Render "pages/login"
    [("message", VStr "An error occurred during login. Please try again.");
     ("error", VBool true)].

(** The page the branches of the login handler other than the password
    mismatch render. *)
Definition login_page (message : string) : Reply :=
  Render "pages/login" [("message", VStr message); ("error", VBool true)].

(** The page of a logout that went through. *)
Definition logout_page : Reply :=
  Render "pages/logout" [("message", VStr "Logged out Successfully"); ("error", VBool false)].

(** What a client without a user record can be answered. *)
Inductive anonymous_reply : Response -> Prop :=
| ar_to_login : anonymous_reply (Replied 302 (Redirect "/login"))
| ar_to_register : anonymous_reply (Replied 302 (Redirect "/register"))
| ar_to_discover : anonymous_reply (Replied 302 (Redirect "/discover"))
| ar_login_page locals : anonymous_reply (Replied 200 (Render "pages/login" locals))
| ar_login_view locals : anonymous_reply (Replied 200 (Render "login" locals))
| ar_register_page : anonymous_reply (Replied 200 (Render "pages/register" [])).

Definition anonymous_profile_request : Request := form GET "/profile" None None "s1".

Definition anonymous_discover_request : Request := form GET "/discover" None None "s1".

Definition anonymous_logout_request : Request := form GET "/logout" None None "s1".

(** The same server with another password hash in alice's session. *)
Definition alice_logged_in_other_hash : Server :=
  mkServer [alice_row] {[ "s1" := mkSession (Some (mkUserRow "alice" "another hash")) ]}.

(** The database cannot be reached. *)
Definition db_down : Env := mkEnv "salt" (Some "connect ECONNREFUSED") None None None.

(** The session store fails to destroy. *)
Definition store_down : Env := mkEnv "salt" None None None (Some "store unavailable").

(** ** What the further properties name *)

(** A request leaves the server as it was, or it is a logout that
    removes the session of its id, or a login that binds the row it
    found to the session of its id, or a registration that appends a row
    for a username the table did not have. *)
Inductive effect `{hasher : Hasher} (env : Env) (req : Request) (srv : Server) : Server -> Prop :=
| effect_none : effect env req srv srv
| effect_logout :
    method_match GET (method req) = true ->
    route_match "/logout" (path req) = true ->
    destroy_error env = None ->
    user (load_session req srv) <> None ->
    effect env req srv (mkServer (table srv) (delete (sessionID req) (sessions srv)))
| effect_login row :
    login_succeeds env req srv ->
    select_by_username (body_username req) (table srv) = [row] ->
    effect env req srv
      (mkServer (table srv) (<[sessionID req := mkSession (Some row)]> (sessions srv)))
| effect_register name pw :
    method req = POST ->
    route_match "/register" (path req) = true ->
    body_username req = Some name ->
    body_password req = Some pw ->
    select_by_username (Some name) (table srv) = [] ->
    effect env req srv
      (mkServer (table srv ++ [mkUserRow name (hash_fn pw 10 (salt env))])%list
         (sessions srv)).

(** The answers the routes can give. *)
Inductive possible_reply : Response -> Prop :=
| pr_redirect_login : possible_reply (Replied 302 (Redirect "/login"))
| pr_redirect_register : possible_reply (Replied 302 (Redirect "/register"))
| pr_redirect_discover : possible_reply (Replied 302 (Redirect "/discover"))
| pr_login_page locals : possible_reply (Replied 200 (Render "pages/login" locals))
| pr_login_view locals : possible_reply (Replied 200 (Render "login" locals))
| pr_register_page : possible_reply (Replied 200 (Render "pages/register" []))
| pr_discover_page : possible_reply (Replied 200 (Render "pages/discover" []))
| pr_profile_page name :
    possible_reply (Replied 200 (Render "pages/profile" [("username", VStr name)]))
| pr_logout_page : possible_reply (Replied 200 logout_page)
| pr_logout_failed : possible_reply (Replied 500 (Send "Could not log out."))
| pr_unanswered : possible_reply Unanswered.

(** The route table without the second mount of the gate. *)
Definition app_stack_single_gate `{hasher : Hasher} : list Layer :=
  [ Route GET "/" get_root;
    Route GET "/login" get_login;
    Route GET "/register" get_register;
    Route POST "/register" post_register;
    Route POST "/login" post_login;
    Use "/" auth;
    Route GET "/discover" get_discover;
    Route GET "/logout" get_logout;
    Route GET "/profile" get_profile ].

(** Requests of the small world. *)
Definition register_alice : Request :=
  form POST "/register" (Some "alice") (Some "pw1") "s1".

Definition login_alice : Request := form POST "/login" (Some "alice") (Some "pw1") "s1".

Definition login_alice_wrong : Request :=
  form POST "/login" (Some "alice") (Some "wrong") "s1".

Definition logout_s1 : Request := form GET "/logout" None None "s1".

Definition profile_s1 : Request := form GET "/profile" None None "s1".

(** * Properties *)

Section Properties.

Context `{hasher : Hasher}.

(** ** Routing *)

Lemma route_match_cases pat p :
  ends_with_slash pat = false ->
  route_match pat p = true ->
  lower p = pat \/ lower p = pat +:+ "/".
Proof.
  unfold route_match. intros ->. intros H.
  apply orb_true_iff in H as [H|H]; apply String.eqb_eq in H; auto.
Qed.

Lemma dispatch_gated env req :
  is_public req = false ->
  dispatch app_stack env req = auth env req (dispatch gated_stack env req).
Proof.
  unfold is_public. intros H.
  repeat (apply orb_false_iff in H as [H ?]).
  unfold app_stack. cbn [dispatch].
  repeat match goal with E : _ = false |- _ => rewrite E; clear E end.
  reflexivity.
Qed.

(** A request that a public route takes goes to that route's handler. *)
Lemma dispatch_public env req :
  is_public req = true ->
  dispatch app_stack env req = get_root env req
  \/ dispatch app_stack env req = get_login env req
  \/ dispatch app_stack env req = get_register env req
  \/ dispatch app_stack env req = post_register env req
  \/ (method_match POST (method req) = true
      /\ route_match "/login" (path req) = true
      /\ dispatch app_stack env req = post_login env req).
Proof.
  unfold is_public, app_stack. cbn [dispatch]. intros H.
  destruct (method_match GET (method req) && route_match "/" (path req)); [by left|].
  destruct (method_match GET (method req) && route_match "/login" (path req));
    [by right; left|].
  destruct (method_match GET (method req) && route_match "/register" (path req));
    [by right; right; left|].
  destruct (method_match POST (method req) && route_match "/register" (path req));
    [by right; right; right; left|].
  cbn [orb] in H. apply andb_true_iff in H as [Hm Hp]. rewrite Hm, Hp.
  by right; right; right; right.
Qed.

(** A path that one route matches is matched by no route of another
    path. *)
Ltac settle_path H :=
  apply route_match_cases in H; [| reflexivity];
  destruct H as [H|H];
  unfold is_public, route_match, use_match; rewrite H; cbn;
  rewrite ?andb_false_r; cbn.

Lemma discover_not_public req :
  route_match "/discover" (path req) = true -> is_public req = false.
Proof. intros H. settle_path H; reflexivity. Qed.

Lemma logout_not_public req :
  route_match "/logout" (path req) = true -> is_public req = false.
Proof. intros H. settle_path H; reflexivity. Qed.

Lemma profile_not_public req :
  route_match "/profile" (path req) = true -> is_public req = false.
Proof. intros H. settle_path H; reflexivity. Qed.

(** ** The gate *)

(** Without a user record the gate redirects, whatever [next] is. *)
Lemma auth_blocks env req next c s :
  session c = Some s -> user s = None -> sent c = None ->
  auth env req next c =
  (mkCtx (users c) (store c) (session c) 302 (Some (Redirect "/login")), Ok tt).
Proof.
  destruct c as [us st se sc sn]. cbn. intros -> Hu ->.
  unfold auth, bind, req_session_user. cbn. rewrite Hu. reflexivity.
Qed.

(** With a user record the gate hands over to [next]. *)
Lemma auth_passes env req next c s row :
  session c = Some s -> user s = Some row ->
  auth env req next c = next c.
Proof.
  intros Hs Hu. unfold auth, bind, req_session_user. rewrite Hs, Hu. reflexivity.
Qed.

(** A request that no public route takes, from a client without a user
    record, is redirected to the login page and changes nothing. *)
Lemma gated_unauthenticated env req srv :
  is_public req = false ->
  user (load_session req srv) = None ->
  app_handle env req srv = (Replied 302 (Redirect "/login"), srv).
Proof.
  intros Hp Hu. unfold app_handle.
  rewrite dispatch_gated by exact Hp.
  erewrite auth_blocks by (cbn; eauto). cbn.
  unfold end_of_response. cbn.
  rewrite decide_True by reflexivity. destruct srv; reflexivity.
Qed.

(** ** Unfolding the handlers *)

Ltac unfold_handlers :=
  unfold get_root, get_login, get_register, post_register, post_login,
    get_discover, get_logout, get_profile, auth,
    bcrypt_hash, bcrypt_compare, db_oneOrNone, db_none_insert,
    req_session_user, set_req_session_user, req_session_save, req_session_destroy,
    res_redirect, res_render, res_send, res_status, respond, console_error,
    try_catch, bind, ret, throw in *.

Ltac crush_handlers :=
  unfold_handlers; cbn in *;
  repeat (case_match; cbn in *; simplify_eq; try done).

Lemma anonymous_replies env req srv :
  user (load_session req srv) = None ->
  anonymous_reply (app_handle env req srv).1.
Proof.
  intros Hu. destruct (is_public req) eqn:Hp.
  - unfold app_handle.
    destruct (dispatch_public env req Hp) as [E|[E|[E|[E|(_ & _ & E)]]]];
      rewrite E; clear E Hp Hu; crush_handlers; constructor.
  - rewrite gated_unauthenticated by done. constructor.
Qed.

(** ** The gate in front of [/discover], [/logout] and [/profile] *)

Lemma run_gated_unauthenticated req srv (envs : list Env) :
  is_public req = false ->
  user (load_session req srv) = None ->
  run (map (fun env => (env, req)) envs) srv
  = (map (fun _ => Replied 302 (Redirect "/login")) envs, srv).
Proof.
  intros Hp Hu. induction envs as [|env envs IH]; [reflexivity|].
  cbn [map run]. rewrite gated_unauthenticated by done.
  rewrite IH. reflexivity.
Qed.

(** C4.  A request to [/discover] from a client whose session holds no
    user record is answered by the gate with a redirect to [/login],
    whatever stage would come next, and leaves the server as it was; so
    repeating it any number of times, whatever the world does meanwhile,
    gives that redirect every time.  No request at all from such a client
    is answered with the discover page. *)
Theorem discover_gate_idempotent env req srv (envs : list Env) :
  route_match "/discover" (path req) = true ->
  user (load_session req srv) = None ->
  app_handle env req srv = (Replied 302 (Redirect "/login"), srv)
  /\ (forall next,
        auth env req next (initial_ctx req srv)
        = res_redirect "/login" (initial_ctx req srv))
  /\ run (map (fun env => (env, req)) envs) srv
     = (map (fun _ => Replied 302 (Redirect "/login")) envs, srv)
  /\ (forall env' req' status locals,
        user (load_session req' srv) = None ->
        (app_handle env' req' srv).1 <> Replied status (Render "pages/discover" locals)).
Proof.
  intros Hp Hu. apply discover_not_public in Hp.
  split; [by apply gated_unauthenticated|].
  split; [intros next; by erewrite auth_blocks by (cbn; eauto)|].
  split; [by apply run_gated_unauthenticated|].
  intros env' req' status locals Hu' Heq.
  pose proof (anonymous_replies env' req' srv Hu') as Hr.
  rewrite Heq in Hr. inversion Hr.
Qed.

(** C9.  A GET [/logout] from a client whose session holds no user
    record is answered by the gate with a redirect to [/login], whatever
    stage would come next, and the session store stays as it was; the
    logout page and the failure reply of the logout handler are only ever
    sent to a client whose session holds a user record. *)
Theorem logout_behind_gate env req srv :
  method_match GET (method req) = true ->
  route_match "/logout" (path req) = true ->
  user (load_session req srv) = None ->
  app_handle env req srv = (Replied 302 (Redirect "/login"), srv)
  /\ (forall next,
        auth env req next (initial_ctx req srv)
        = res_redirect "/login" (initial_ctx req srv))
  /\ (forall env' req' srv' status locals,
        (app_handle env' req' srv').1 = Replied status (Render "pages/logout" locals)
        \/ (app_handle env' req' srv').1 = Replied status (Send "Could not log out.") ->
        user (load_session req' srv') <> None).
Proof.
  intros _ Hp Hu. apply logout_not_public in Hp.
  split; [by apply gated_unauthenticated|].
  split; [intros next; by erewrite auth_blocks by (cbn; eauto)|].
  intros env' req' srv' status locals Heq Hu'.
  pose proof (anonymous_replies env' req' srv' Hu') as Hr.
  destruct Heq as [Heq|Heq]; rewrite Heq in Hr; inversion Hr.
Qed.

(** C1, as the code has it.  A GET [/profile] from a client whose
    session holds no user record is answered by the gate with a redirect
    to [/login] and never reaches the profile handler; the handler's own
    check, run on such a session, sends status 401 with the plain text
    [Not authenticated] and renders no template. *)
Theorem profile_unauthenticated env req srv :
  method_match GET (method req) = true ->
  route_match "/profile" (path req) = true ->
  user (load_session req srv) = None ->
  app_handle env req srv = (Replied 302 (Redirect "/login"), srv)
  /\ (forall next,
        auth env req next (initial_ctx req srv)
        = res_redirect "/login" (initial_ctx req srv))
  /\ get_profile env req (initial_ctx req srv)
     = (mkCtx (table srv) (sessions srv) (Some (load_session req srv)) 401
          (Some (Send "Not authenticated")), Ok tt).
Proof.
  intros _ Hp Hu. apply profile_not_public in Hp.
  split; [by apply gated_unauthenticated|].
  split; [intros next; by erewrite auth_blocks by (cbn; eauto)|].
  unfold get_profile, bind, req_session_user, initial_ctx. cbn.
  rewrite Hu. reflexivity.
Qed.

(** ** Registration and login *)

Lemma dispatch_post_register env req :
  method req = POST ->
  route_match "/register" (path req) = true ->
  dispatch app_stack env req = post_register env req.
Proof.
  intros Hm Hp. unfold app_stack. cbn [dispatch]. rewrite Hm.
  settle_path Hp; reflexivity.
Qed.

Lemma dispatch_post_login env req :
  method req = POST ->
  route_match "/login" (path req) = true ->
  dispatch app_stack env req = post_login env req.
Proof.
  intros Hm Hp. unfold app_stack. cbn [dispatch]. rewrite Hm.
  settle_path Hp; reflexivity.
Qed.

(** C6.  A POST [/login] whose username has no row in the [users] table
    is answered with status 200 and the login page carrying the message
    [Username not found. Please register.] and the error flag; nothing is
    redirected, and the sessions and the table stay as they were. *)
Theorem login_unknown_username env req srv :
  method req = POST ->
  route_match "/login" (path req) = true ->
  db_error env = None ->
  select_by_username (body_username req) (table srv) = [] ->
  app_handle env req srv
  = (Replied 200
       (Render "pages/login"
          [("message", VStr "Username not found. Please register.");
           ("error", VBool true)]),
     srv).
Proof.
  intros Hm Hp Hdb Hsel. unfold app_handle.
  rewrite dispatch_post_login by done.
  unfold_handlers. cbn. rewrite Hdb, Hsel. cbn.
  unfold end_of_response. cbn. rewrite decide_True by reflexivity.
  destruct srv; reflexivity.
Qed.

(** C2, as the code has it.  A POST [/login] whose username has a row
    and whose password does not verify is answered with the message
    [Incorrect username or password.] and the error flag, but through the
    view [login], which is not the view [pages/login] of the handler's
    other branches. *)
Theorem login_wrong_password_view env req srv row pw :
  method req = POST ->
  route_match "/login" (path req) = true ->
  db_error env = None ->
  select_by_username (body_username req) (table srv) = [row] ->
  compare_error env = None ->
  body_password req = Some pw ->
  compare_fn pw (password row) = false ->
  app_handle env req srv
  = (Replied 200
       (Render "login"
          [("message", VStr "Incorrect username or password."); ("error", VBool true)]),
     srv)
  /\ (app_handle env req srv).1 <> Replied 200 (login_page "Incorrect username or password.").
Proof.
  intros Hm Hp Hdb Hsel Hce Hpw Hcmp.
  assert (app_handle env req srv
          = (Replied 200
               (Render "login"
                  [("message", VStr "Incorrect username or password.");
                   ("error", VBool true)]), srv)) as Heq.
  { unfold app_handle. rewrite dispatch_post_login by done.
    unfold_handlers. cbn. rewrite Hdb, Hsel, Hce, Hpw. cbn. rewrite Hcmp. cbn.
    unfold end_of_response. cbn. rewrite decide_True by reflexivity.
    destruct srv; reflexivity. }
  split; [exact Heq|]. rewrite Heq. cbn. unfold login_page. discriminate.
Qed.

(** C8.  When the lookup of a POST [/login] throws, or the lookup finds
    a row and the verification of the password throws, the handler
    neither crashes nor leaves the request unanswered: it answers with
    the login page carrying the same fixed failure message and the error
    flag, whatever the error was, and changes nothing. *)
Theorem login_unexpected_failure env req srv :
  method req = POST ->
  route_match "/login" (path req) = true ->
  (exists e, (db_oneOrNone env (body_username req) (initial_ctx req srv)).2 = Throw e)
  \/ (exists row e,
        (db_oneOrNone env (body_username req) (initial_ctx req srv)).2 = Ok (Some row)
        /\ (bcrypt_compare env (body_password req) (password row) (initial_ctx req srv)).2
           = Throw e) ->
  app_handle env req srv = (Replied 200 login_failure_page, srv).
Proof.
  intros Hm Hp Hfail. unfold app_handle.
  rewrite dispatch_post_login by done.
  fold (initial_ctx req srv). unfold post_login, try_catch, bind at 1.
  destruct Hfail as [[e He]|(row & e & Hrow & He)].
  - destruct (db_oneOrNone env (body_username req) (initial_ctx req srv)) as [c r] eqn:Hq.
    cbn in He. subst r.
    assert (c = initial_ctx req srv) as ->.
    { revert Hq. unfold db_oneOrNone. repeat case_match; congruence. }
    unfold_handlers. cbn. unfold end_of_response. cbn.
    rewrite decide_True by reflexivity. destruct srv; reflexivity.
  - destruct (db_oneOrNone env (body_username req) (initial_ctx req srv)) as [c r] eqn:Hq.
    cbn in Hrow. subst r.
    assert (c = initial_ctx req srv) as ->.
    { revert Hq. unfold db_oneOrNone. repeat case_match; congruence. }
    unfold bind at 1.
    destruct (bcrypt_compare env (body_password req) (password row) (initial_ctx req srv))
      as [c r] eqn:Hc.
    cbn in He. subst r.
    assert (c = initial_ctx req srv) as ->.
    { revert Hc. unfold bcrypt_compare, throw, ret. repeat case_match; congruence. }
    unfold_handlers. cbn. unfold end_of_response. cbn.
    rewrite decide_True by reflexivity. destruct srv; reflexivity.
Qed.

Lemma method_match_POST m : method_match POST m = true -> m = POST.
Proof. destruct m; vm_compute; congruence. Qed.

Lemma login_success env req srv row pw :
  method req = POST ->
  route_match "/login" (path req) = true ->
  db_error env = None ->
  select_by_username (body_username req) (table srv) = [row] ->
  compare_error env = None ->
  body_password req = Some pw ->
  compare_fn pw (password row) = true ->
  app_handle env req srv
  = (Replied 302 (Redirect "/discover"),
     mkServer (table srv) (<[sessionID req := mkSession (Some row)]> (sessions srv))).
Proof.
  intros Hm Hp Hdb Hsel Hce Hpw Hcmp.
  unfold app_handle. rewrite dispatch_post_login by done.
  unfold_handlers. cbn. rewrite Hdb, Hsel, Hce, Hpw. cbn. rewrite Hcmp. cbn.
  unfold end_of_response. cbn.
  case_decide; [reflexivity|]. by rewrite insert_insert_eq.
Qed.

(** What one request can do to the session store: nothing, remove the
    entry of its own session id, or, when it is a login that goes
    through, bind a row of the table to its own session id. *)
Lemma app_handle_sessions env req srv :
  sessions (app_handle env req srv).2 = sessions srv
  \/ sessions (app_handle env req srv).2 = delete (sessionID req) (sessions srv)
  \/ (login_succeeds env req srv
      /\ exists row,
           sessions (app_handle env req srv).2
           = <[sessionID req := mkSession (Some row)]> (sessions srv)).
Proof.
  destruct (is_public req) eqn:Hpub.
  - unfold app_handle.
    destruct (dispatch_public env req Hpub) as [E|[E|[E|[E|(Hm & Hp & E)]]]];
      rewrite E; clear E Hpub; unfold end_of_response.
    1-4: left; crush_handlers.
    apply method_match_POST in Hm.
    crush_handlers.
    all: try match goal with |- ?x = ?x \/ _ => left; reflexivity end.
    all: right; right; split;
      [ split; [assumption|]; split; [exact Hp|];
        do 2 eexists; repeat (split; [eassumption|]);
        apply negb_false_iff; eassumption
      | eexists; first [reflexivity | by rewrite insert_insert_eq] ].
  - unfold app_handle. rewrite dispatch_gated by done.
    unfold gated_stack. cbn [dispatch]. unfold end_of_response.
    crush_handlers.
    all: match goal with
         | |- ?x = ?x \/ _ => left; reflexivity
         | |- _ \/ ?x = ?x \/ _ => right; left; reflexivity
         end.
Qed.

(** A user record appears in a client's session only through a login
    that goes through under that client's session id. *)
Lemma session_user_step env req srv sid :
  session_user srv sid = None ->
  session_user (app_handle env req srv).2 sid <> None ->
  sessionID req = sid /\ login_succeeds env req srv.
Proof.
  unfold session_user. intros Hn Hs.
  destruct (app_handle_sessions env req srv) as [Heq|[Heq|[Hl [row Heq]]]];
    rewrite Heq in Hs.
  - done.
  - rewrite lookup_delete in Hs. case_decide; [done|]. done.
  - rewrite lookup_insert in Hs. case_decide; [done|]. done.
Qed.

Lemma session_user_trace sid trace srv :
  session_user srv sid = None ->
  session_user (run trace srv).2 sid <> None ->
  logs_in sid trace srv.
Proof.
  revert srv. induction trace as [|[env req] rest IH]; intros srv Hn Hs.
  - cbn in Hs. done.
  - cbn [run] in Hs. cbn [logs_in].
    destruct (app_handle env req srv) as [resp srv1] eqn:Hstep.
    destruct (run rest srv1) as [resps srv2] eqn:Hrest. cbn in Hs.
    destruct (session_user srv1 sid) as [u|] eqn:Hu.
    + left. apply session_user_step; [done|]. rewrite Hstep. cbn. by rewrite Hu.
    + right. cbn. apply IH; [done|]. rewrite Hrest. done.
Qed.

(** C3.  A POST [/login] whose username has a row and whose password
    verifies binds the whole row to the client's session, writes the
    session to the store and is answered with a redirect to [/discover]:
    when the handler returns, before the response ends, [req.session]
    holds the row and the store holds that session under the request's
    session id.  So the client's session holds a user record afterwards.  And a
    client's session holds no user record after any sequence of requests
    that contains no such login under its session id, starting from a
    server where it holds none (a server with no sessions, for one). *)
Theorem login_binds_session env req srv row pw :
  method req = POST ->
  route_match "/login" (path req) = true ->
  db_error env = None ->
  select_by_username (body_username req) (table srv) = [row] ->
  compare_error env = None ->
  body_password req = Some pw ->
  compare_fn pw (password row) = true ->
  app_handle env req srv
  = (Replied 302 (Redirect "/discover"),
     mkServer (table srv) (<[sessionID req := mkSession (Some row)]> (sessions srv)))
  /\ post_login env req (initial_ctx req srv)
     = (mkCtx (table srv)
          (<[sessionID req := mkSession (Some row)]> (sessions srv))
          (Some (mkSession (Some row))) 302 (Some (Redirect "/discover")),
        Ok tt)
  /\ session_user (app_handle env req srv).2 (sessionID req) = Some row
  /\ (forall sid tbl, session_user (mkServer tbl ∅) sid = None)
  /\ (forall sid trace srv0,
        session_user srv0 sid = None ->
        ~ logs_in sid trace srv0 ->
        session_user (run trace srv0).2 sid = None).
Proof.
  intros Hm Hp Hdb Hsel Hce Hpw Hcmp.
  pose proof (login_success env req srv row pw Hm Hp Hdb Hsel Hce Hpw Hcmp) as Heq.
  split; [exact Heq|]. split.
  { unfold initial_ctx. unfold_handlers. cbn. rewrite Hdb, Hsel, Hce, Hpw. cbn.
    rewrite Hcmp. reflexivity. }
  split.
  { rewrite Heq. unfold session_user. cbn. by rewrite lookup_insert_eq. }
  split.
  { intros sid tbl. unfold session_user. cbn. by rewrite lookup_empty. }
  intros sid trace srv0 Hn Hno.
  destruct (session_user (run trace srv0).2 sid) as [u|] eqn:Hu; [|reflexivity].
  exfalso. apply Hno. apply session_user_trace; [done|]. by rewrite Hu.
Qed.

(** ** Registration *)

Lemma select_by_username_In name row rows :
  List.In row rows -> username row = name ->
  select_by_username (Some name) rows <> [].
Proof.
  intros Hin Hname Hnil. unfold select_by_username in Hnil.
  assert (List.In row (List.filter (fun r => String.eqb (username r) name) rows)) as H.
  { apply List.filter_In. split; [done|]. by apply String.eqb_eq. }
  rewrite Hnil in H. destruct H.
Qed.

Lemma register_failure env req srv :
  method req = POST ->
  route_match "/register" (path req) = true ->
  (exists e, (bcrypt_hash env (body_password req) 10 (initial_ctx req srv)).2 = Throw e)
  \/ (forall hash, exists e,
        (db_none_insert env (body_username req) hash (initial_ctx req srv)).2 = Throw e) ->
  app_handle env req srv = (Replied 302 (Redirect "/register"), srv).
Proof.
  intros Hm Hp Hfail. unfold app_handle.
  rewrite dispatch_post_register by done.
  fold (initial_ctx req srv). unfold post_register, try_catch, bind at 1.
  destruct (bcrypt_hash env (body_password req) 10 (initial_ctx req srv)) as [c r] eqn:Hh.
  assert (c = initial_ctx req srv) as ->.
  { revert Hh. unfold bcrypt_hash, throw, ret. repeat case_match; congruence. }
  destruct r as [hash|e].
  - destruct Hfail as [[e He]|Hins]; [done|].
    destruct (Hins hash) as [e He]. unfold bind at 1.
    destruct (db_none_insert env (body_username req) hash (initial_ctx req srv))
      as [c r] eqn:Hi.
    cbn in He. subst r.
    assert (c = initial_ctx req srv) as ->.
    { revert Hi. unfold db_none_insert. repeat case_match; congruence. }
    unfold_handlers. cbn. unfold end_of_response. cbn.
    rewrite decide_True by reflexivity. destruct srv; reflexivity.
  - unfold_handlers. cbn. unfold end_of_response. cbn.
    rewrite decide_True by reflexivity. destruct srv; reflexivity.
Qed.

(** C5, as the code has it.  A POST [/register] is answered with a
    redirect and nothing else: to [/login], with the new row in the
    table, when the password hashes and the row is inserted; back to
    [/register], with the server as it was and the same reply whatever
    the error, when the hash computation fails, when the username is
    already registered, or when the database cannot be reached.  The
    handler gives the redirect no body of its own, but the redirect is
    not without one: a client that accepts plain text reads the notice
    [res.redirect] writes, [Found. Redirecting to] and the address. *)
Theorem register_redirects env req srv :
  method req = POST ->
  route_match "/register" (path req) = true ->
  (forall name pw,
     hash_error env = None -> body_password req = Some pw ->
     db_error env = None -> body_username req = Some name ->
     select_by_username (Some name) (table srv) = [] ->
     app_handle env req srv
     = (Replied 302 (Redirect "/login"),
        mkServer (table srv ++ [mkUserRow name (hash_fn pw 10 (salt env))])%list
          (sessions srv)))
  /\ ((hash_error env <> None \/ body_password req = None) ->
      app_handle env req srv = (Replied 302 (Redirect "/register"), srv))
  /\ (forall name row,
        body_username req = Some name -> List.In row (table srv) -> username row = name ->
        app_handle env req srv = (Replied 302 (Redirect "/register"), srv))
  /\ (db_error env <> None ->
      app_handle env req srv = (Replied 302 (Redirect "/register"), srv))
  /\ ((app_handle env req srv).1 = Replied 302 (Redirect "/login")
      \/ app_handle env req srv = (Replied 302 (Redirect "/register"), srv))
  /\ (body_for_text_client req (app_handle env req srv).1
      = Some "Found. Redirecting to /login"
      \/ body_for_text_client req (app_handle env req srv).1
         = Some "Found. Redirecting to /register").
Proof.
  intros Hm Hp. repeat split.
  - intros name pw Hhe Hpw Hdb Hname Hsel.
    unfold app_handle. rewrite dispatch_post_register by done.
    unfold_handlers. cbn -[select_by_username]. rewrite Hhe, Hpw, Hdb, Hname.
    cbn -[select_by_username]. rewrite Hsel. cbn.
    unfold end_of_response. cbn. rewrite decide_True by reflexivity. reflexivity.
  - intros Hh. apply register_failure; [done..|]. left.
    unfold bcrypt_hash, throw, ret.
    destruct (hash_error env) as [e|]; [by eexists|].
    destruct Hh as [Hh| ->]; [done|]. by eexists.
  - intros name row Hname Hin Hrow. apply register_failure; [done..|]. right.
    intros hash. unfold db_none_insert, users_insert. rewrite Hname.
    destruct (db_error env) as [e|]; [by eexists|]. cbn -[select_by_username].
    pose proof (select_by_username_In name row (table srv) Hin Hrow) as Hne.
    destruct (select_by_username (Some name) (table srv)); [done|]. by eexists.
  - intros Hdb. apply register_failure; [done..|]. right.
    intros hash. unfold db_none_insert.
    destruct (db_error env) as [e|]; [by eexists|done].
  - unfold app_handle. rewrite dispatch_post_register by done.
    unfold end_of_response. unfold users_insert. crush_handlers; auto.
    all: right; destruct srv; reflexivity.
  - unfold app_handle. rewrite dispatch_post_register by done.
    unfold body_for_text_client, redirect_text_body. rewrite Hm.
    unfold users_insert. crush_handlers; auto.
Qed.

(** ** Logout *)

Lemma dispatch_logout env req :
  method_match GET (method req) = true ->
  route_match "/logout" (path req) = true ->
  dispatch app_stack env req = auth env req (get_logout env req).
Proof.
  intros Hm Hp. rewrite dispatch_gated by by apply logout_not_public.
  f_equal. unfold gated_stack. cbn [dispatch]. rewrite Hm.
  settle_path Hp; reflexivity.
Qed.

Lemma dispatch_profile env req :
  method_match GET (method req) = true ->
  route_match "/profile" (path req) = true ->
  dispatch app_stack env req = auth env req (get_profile env req).
Proof.
  intros Hm Hp. rewrite dispatch_gated by by apply profile_not_public.
  f_equal. unfold gated_stack. cbn [dispatch]. rewrite Hm.
  settle_path Hp; reflexivity.
Qed.

(** C7, as the code has it.  A GET [/logout] from a client whose session
    holds a user record reaches the logout handler, which destroys the
    session: when the store fails to destroy it, the answer is status 500
    with the plain text [Could not log out.] and no page is rendered;
    when it succeeds, the session is gone from the store and the answer
    is the logout page with the message [Logged out Successfully] and the
    error flag false. *)
Theorem logout_authenticated env req srv row :
  method_match GET (method req) = true ->
  route_match "/logout" (path req) = true ->
  user (load_session req srv) = Some row ->
  (forall e, destroy_error env = Some e ->
     app_handle env req srv = (Replied 500 (Send "Could not log out."), srv))
  /\ (destroy_error env = None ->
      app_handle env req srv
      = (Replied 200 logout_page,
         mkServer (table srv) (delete (sessionID req) (sessions srv)))
      /\ session_user (app_handle env req srv).2 (sessionID req) = None).
Proof.
  intros Hm Hp Hu. split.
  - intros e He. unfold app_handle. rewrite dispatch_logout by done.
    erewrite auth_passes by (cbn; eauto).
    unfold_handlers. cbn. rewrite He. cbn. unfold end_of_response. cbn.
    destruct srv; reflexivity.
  - intros He.
    assert (app_handle env req srv
            = (Replied 200 logout_page,
               mkServer (table srv) (delete (sessionID req) (sessions srv)))) as Heq.
    { unfold app_handle. rewrite dispatch_logout by done.
      erewrite auth_passes by (cbn; eauto).
      unfold_handlers. cbn. rewrite He. cbn. reflexivity. }
    split; [exact Heq|]. rewrite Heq. unfold session_user. cbn.
    by rewrite lookup_delete_eq.
Qed.

(** ** The password hash of a session *)

Lemma same_public_load req srv1 srv2 :
  same_public srv1 srv2 ->
  public_view (load_session req srv1) = public_view (load_session req srv2).
Proof.
  intros [_ H]. specialize (H (sessionID req)). unfold load_session.
  destruct (sessions srv1 !! sessionID req), (sessions srv2 !! sessionID req);
    cbn in *; congruence.
Qed.

Lemma same_public_insert tbl st1 st2 sid s :
  same_public (mkServer tbl st1) (mkServer tbl st2) ->
  same_public (mkServer tbl (<[sid := s]> st1)) (mkServer tbl (<[sid := s]> st2)).
Proof.
  intros [_ H]. split; [done|]. intros sid'. cbn in *.
  rewrite !lookup_insert. case_decide; [done|]. apply H.
Qed.

Lemma same_public_delete tbl st1 st2 sid :
  same_public (mkServer tbl st1) (mkServer tbl st2) ->
  same_public (mkServer tbl (delete sid st1)) (mkServer tbl (delete sid st2)).
Proof.
  intros [_ H]. split; [done|]. intros sid'. cbn in *.
  rewrite !lookup_delete. case_decide; [done|]. apply H.
Qed.

Lemma same_public_table tbl tbl' st1 st2 :
  same_public (mkServer tbl st1) (mkServer tbl st2) ->
  same_public (mkServer tbl' st1) (mkServer tbl' st2).
Proof. intros [_ H]. split; [done|]. apply H. Qed.

(** The answer to a request does not depend on the password hashes held
    in the sessions, and neither does what the sessions show afterwards. *)
Lemma app_handle_same_public env req srv1 srv2 :
  same_public srv1 srv2 ->
  (app_handle env req srv1).1 = (app_handle env req srv2).1
  /\ same_public (app_handle env req srv1).2 (app_handle env req srv2).2.
Proof.
  intros Hsame. pose proof (same_public_load req _ _ Hsame) as Hload.
  unfold app_handle.
  destruct srv1 as [tbl st1], srv2 as [tbl2 st2].
  assert (tbl2 = tbl) as -> by (destruct Hsame as [Ht _]; cbn in Ht; congruence).
  generalize dependent (load_session req (mkServer tbl st1)). intros s1.
  generalize dependent (load_session req (mkServer tbl st2)). intros s2 Hload.
  cbn [table sessions].
  destruct s1 as [u1], s2 as [u2]. unfold public_view in Hload. cbn in Hload.
  destruct (is_public req) eqn:Hpub.
  - destruct (dispatch_public env req Hpub) as [E|[E|[E|[E|(_ & _ & E)]]]];
      rewrite E; clear E Hpub; unfold end_of_response.
    all: crush_handlers.
    all: rewrite ?insert_insert_eq.
    all: split; [done|];
      eauto using same_public_insert, same_public_delete, same_public_table.
  - rewrite dispatch_gated by done.
    unfold gated_stack. cbn [dispatch]. unfold end_of_response.
    crush_handlers.
    all: split; [first [done | by rewrite Hload]|];
      eauto using same_public_insert, same_public_delete, same_public_table.
Qed.

Lemma run_same_public trace srv1 srv2 :
  same_public srv1 srv2 ->
  (run trace srv1).1 = (run trace srv2).1
  /\ same_public (run trace srv1).2 (run trace srv2).2.
Proof.
  revert srv1 srv2. induction trace as [|[env req] rest IH]; intros srv1 srv2 Hsame.
  - by split.
  - cbn [run].
    destruct (app_handle_same_public env req srv1 srv2 Hsame) as [Hresp Hnext].
    destruct (app_handle env req srv1) as [r1 srv1'].
    destruct (app_handle env req srv2) as [r2 srv2'].
    cbn in Hresp, Hnext. subst r2.
    destruct (IH srv1' srv2' Hnext) as [Hresps Hlast].
    destruct (run rest srv1') as [rs1 srv1''].
    destruct (run rest srv2') as [rs2 srv2''].
    cbn in *. split; congruence.
Qed.

(** C10.  A GET [/profile] from a client whose session holds a user
    record renders the profile page with the username of that record and
    nothing else of it; and whatever the requests, two servers that
    differ only in the password hashes held in their sessions give the
    same answers, so no render gets the hash of a session. *)
Theorem session_hash_not_rendered env req srv1 srv2 row :
  method_match GET (method req) = true ->
  route_match "/profile" (path req) = true ->
  user (load_session req srv1) = Some row ->
  same_public srv1 srv2 ->
  (app_handle env req srv1).1
  = Replied 200 (Render "pages/profile" [("username", VStr (username row))])
  /\ (app_handle env req srv2).1 = (app_handle env req srv1).1
  /\ (forall trace, (run trace srv2).1 = (run trace srv1).1).
Proof.
  intros Hm Hp Hu Hsame. split; [|split].
  - unfold app_handle. rewrite dispatch_profile by done.
    erewrite auth_passes by (cbn; eauto).
    unfold_handlers. cbn. rewrite Hu. reflexivity.
  - symmetry. by apply app_handle_same_public.
  - intros trace. symmetry. by apply run_same_public.
Qed.

(** * Further properties of the routes *)

(** ** What one request does to the server *)

Lemma dispatch_public_routes env req :
  is_public req = true ->
  (method_match GET (method req) = true
   /\ (dispatch app_stack env req = get_root env req
       \/ dispatch app_stack env req = get_login env req
       \/ dispatch app_stack env req = get_register env req))
  \/ (method req = POST
      /\ route_match "/register" (path req) = true
      /\ dispatch app_stack env req = post_register env req)
  \/ (method req = POST
      /\ route_match "/login" (path req) = true
      /\ dispatch app_stack env req = post_login env req).
Proof.
  unfold is_public, app_stack. cbn [dispatch]. intros H.
  destruct (method_match GET (method req)) eqn:Hget; cbn [andb orb] in *.
  - left. split; [done|].
    destruct (route_match "/" (path req)); [by left|].
    destruct (route_match "/login" (path req)); [by right; left|].
    destruct (route_match "/register" (path req)); [by right; right|].
    exfalso. destruct (method req); vm_compute in Hget; try done;
      vm_compute in H; done.
  - right.
    destruct (method_match POST (method req)) eqn:Hpost; cbn [andb orb] in *; [|done].
    apply method_match_POST in Hpost.
    destruct (route_match "/register" (path req)); [by left|].
    cbn [orb] in H. right. by rewrite H.
Qed.

Lemma dispatch_gated_routes env req :
  dispatch gated_stack env req = get_discover env req
  \/ dispatch gated_stack env req = auth env req (get_discover env req)
  \/ (method_match GET (method req) = true
      /\ route_match "/logout" (path req) = true
      /\ dispatch gated_stack env req = get_logout env req)
  \/ dispatch gated_stack env req = get_profile env req
  \/ dispatch gated_stack env req = ret tt
  \/ dispatch gated_stack env req = auth env req (ret tt).
Proof.
  unfold gated_stack. cbn [dispatch].
  destruct (method_match GET (method req)) eqn:Hget; cbn [andb].
  - destruct (route_match "/discover" (path req)) eqn:Hd.
    { destruct (use_match "/discover" (path req)); auto. }
    destruct (route_match "/logout" (path req)) eqn:Hl.
    { apply route_match_cases in Hl as Hl'; [|reflexivity].
      assert (use_match "/discover" (path req) = false) as ->.
      { unfold use_match. destruct Hl' as [-> | ->]; reflexivity. }
      auto 10. }
    destruct (route_match "/profile" (path req)) eqn:Hpr.
    { apply route_match_cases in Hpr as Hpr'; [|reflexivity].
      assert (use_match "/discover" (path req) = false) as ->.
      { unfold use_match. destruct Hpr' as [-> | ->]; reflexivity. }
      auto 10. }
    destruct (use_match "/discover" (path req)); auto 10.
  - destruct (use_match "/discover" (path req)); auto 10.
Qed.

Lemma select_by_username_sound name row rows :
  List.In row (select_by_username name rows) ->
  List.In row rows /\ name = Some (username row).
Proof.
  destruct name as [n|]; cbn; [|done].
  intros [Hin Heq]%List.filter_In. apply String.eqb_eq in Heq. by subst.
Qed.

Ltac crush_routes :=
  unfold_handlers;
  cbn -[load_session select_by_username route_match method_match use_match] in *;
  repeat (case_match;
          cbn -[load_session select_by_username route_match method_match use_match] in *;
          simplify_eq; try done).

Lemma app_handle_effect env req srv : effect env req srv (app_handle env req srv).2.
Proof.
  remember (app_handle env req srv).2 as srv' eqn:Hsrv.
  unfold app_handle in Hsrv.
  destruct (is_public req) eqn:Hpub.
  - destruct (dispatch_public_routes env req Hpub)
      as [(_ & [E|[E|E]])|[(Hm & Hp & E)|(Hm & Hp & E)]];
      rewrite E in Hsrv; clear E Hpub; unfold end_of_response in Hsrv.
    1-3: assert (srv' = srv) as -> by (destruct srv; crush_handlers); constructor.
    + crush_routes.
      all: try (destruct srv; constructor 1).
      match goal with H : users_insert _ _ _ = Ok _ |- _ =>
        unfold users_insert in H; repeat case_match; simplify_eq
      end.
      by eapply effect_register.
    + crush_routes.
      all: try (destruct srv; constructor 1).
      all: rewrite ?insert_insert_eq; apply effect_login; [|done].
      all: split; [done|]; split; [done|];
        do 2 eexists; repeat (split; [eassumption|]);
        apply negb_false_iff; eassumption.
  - rewrite dispatch_gated in Hsrv by done. unfold end_of_response in Hsrv.
    destruct (dispatch_gated_routes env req)
      as [E|[E|[(Hm & Hp & E)|[E|[E|E]]]]]; rewrite E in Hsrv; clear E.
    all: crush_routes.
    all: try (destruct srv; constructor 1).
    all: apply effect_logout; try done; congruence.
Qed.

(** ** The [users] table over a run *)

Lemma run_cons env req rest srv :
  (run ((env, req) :: rest) srv).2 = (run rest (app_handle env req srv).2).2.
Proof.
  cbn [run]. destruct (app_handle env req srv) as [resp srv1]. cbn [snd].
  destruct (run rest srv1) as [resps srv2]. reflexivity.
Qed.

Lemma app_handle_table env req srv :
  table (app_handle env req srv).2 = table srv
  \/ exists name pw,
       method req = POST
       /\ route_match "/register" (path req) = true
       /\ body_username req = Some name
       /\ body_password req = Some pw
       /\ select_by_username (Some name) (table srv) = []
       /\ table (app_handle env req srv).2
          = (table srv ++ [mkUserRow name (hash_fn pw 10 (salt env))])%list.
Proof.
  destruct (app_handle_effect env req srv); auto.
  right. by exists name, pw.
Qed.

(** X1.  Rows of the [users] table are never changed or removed: after
    any sequence of requests the table is the old table followed by at
    most one new row per request. *)
Theorem table_append_only trace srv :
  exists added,
    table (run trace srv).2 = (table srv ++ added)%list
    /\ (length added <= length trace)%nat.
Proof.
  revert srv. induction trace as [|[env req] rest IH]; intros srv.
  - exists []. cbn. by rewrite app_nil_r.
  - rewrite run_cons.
    destruct (IH (app_handle env req srv).2) as (added & -> & Hlen).
    destruct (app_handle_table env req srv) as [->|(name & pw & _ & _ & _ & _ & _ & ->)].
    + exists added. split; [done|]. cbn. lia.
    + eexists (_ :: added). rewrite <- app_assoc. split; [done|]. cbn. lia.
Qed.

Lemma select_by_username_nil name rows :
  select_by_username (Some name) rows = [] -> ~ List.In name (List.map username rows).
Proof.
  intros Hnil Hin. apply List.in_map_iff in Hin as (row & Hrow & Hin).
  by apply (select_by_username_In name row rows).
Qed.

Lemma select_by_username_unique name rows :
  List.NoDup (List.map username rows) ->
  (length (select_by_username name rows) <= 1)%nat.
Proof.
  destruct name as [n|]; [|cbn; lia].
  induction rows as [|row rows IH]; cbn; [lia|].
  intros Hnd. apply List.NoDup_cons_iff in Hnd as [Hnotin Hnd].
  destruct (String.eqb_spec (username row) n) as [Heq|Hne].
  - cbn. destruct (List.filter _ rows) as [|row' l] eqn:Hf; [cbn; lia|].
    exfalso. apply Hnotin. apply List.in_map_iff. exists row'.
    assert (List.In row' (List.filter (fun r => String.eqb (username r) n) rows)) as Hin
      by (rewrite Hf; by left).
    apply List.filter_In in Hin as [Hin Hn]. apply String.eqb_eq in Hn. split; congruence.
  - by apply IH.
Qed.

Lemma app_handle_unique env req srv :
  List.NoDup (List.map username (table srv)) ->
  List.NoDup (List.map username (table (app_handle env req srv).2)).
Proof.
  intros Hnd.
  destruct (app_handle_table env req srv) as [->|(name & pw & _ & _ & _ & _ & Hsel & ->)];
    [done|].
  rewrite List.map_app. cbn.
  apply List.NoDup_app;
    [done | apply List.NoDup_cons; [intros []|apply List.NoDup_nil] |].
  intros x Hx [Heq|[]]. subst x. by apply (select_by_username_nil name (table srv)).
Qed.

(** X2.  Usernames stay unique: if no two rows of the table share a
    username, none do after any sequence of requests, and a lookup by
    username then finds at most one row (so [db.oneOrNone] does not
    reject for more than one row). *)
Theorem usernames_stay_unique trace srv :
  List.NoDup (List.map username (table srv)) ->
  List.NoDup (List.map username (table (run trace srv).2))
  /\ forall name,
       (length (select_by_username name (table (run trace srv).2)) <= 1)%nat.
Proof.
  intros Hnd.
  assert (List.NoDup (List.map username (table (run trace srv).2))) as H.
  { revert srv Hnd. induction trace as [|[env req] rest IH]; intros srv Hnd; [done|].
    rewrite run_cons. apply IH. by apply app_handle_unique. }
  split; [done|]. intros name. by apply select_by_username_unique.
Qed.

(** ** The session store over a run *)

Lemma load_session_lookup req srv s :
  sessions srv !! sessionID req = Some s -> load_session req srv = s.
Proof. unfold load_session. by intros ->. Qed.

(** X3.  A request touches no session but that of its own session id:
    the stored session of a client stays as it is over any sequence of
    requests made under other session ids. *)
Theorem session_isolation trace srv sid :
  Forall (fun er => sessionID er.2 <> sid) trace ->
  sessions (run trace srv).2 !! sid = sessions srv !! sid.
Proof.
  revert srv. induction trace as [|[env req] rest IH]; intros srv Hall; [done|].
  apply Forall_cons in Hall as [Hne Hall]. cbn in Hne.
  rewrite run_cons, IH by done.
  destruct (app_handle_effect env req srv); cbn.
  - done.
  - by rewrite lookup_delete_ne.
  - by rewrite lookup_insert_ne.
  - done.
Qed.

(** X4.  A session leaves the store only through a logout: if a client's
    stored session is gone after a request, the request was a GET (or
    HEAD) of [/logout] under that session id, the session held a user
    record, and the store destroyed it without error. *)
Theorem session_removed_only_by_logout env req srv sid s :
  sessions srv !! sid = Some s ->
  sessions (app_handle env req srv).2 !! sid = None ->
  sessionID req = sid
  /\ method_match GET (method req) = true
  /\ route_match "/logout" (path req) = true
  /\ destroy_error env = None
  /\ user s <> None.
Proof.
  intros Hs Hgone.
  destruct (app_handle_effect env req srv) as [|Hm Hp Hd Hu|row Hl Hsel|]; cbn in Hgone.
  - congruence.
  - rewrite lookup_delete in Hgone. case_decide; [|congruence]. subst sid.
    by rewrite (load_session_lookup req srv s Hs) in Hu.
  - rewrite lookup_insert in Hgone. case_decide; congruence.
  - congruence.
Qed.

(** X5.  Every user record held in a session is a row of the [users]
    table: if that holds of the server, it holds after any sequence of
    requests. *)
Theorem sessions_hold_registered_rows trace srv :
  (forall sid row, session_user srv sid = Some row -> List.In row (table srv)) ->
  forall sid row,
    session_user (run trace srv).2 sid = Some row ->
    List.In row (table (run trace srv).2).
Proof.
  revert srv. induction trace as [|[env req] rest IH]; intros srv Hinv; [done|].
  rewrite run_cons. apply IH. clear IH rest.
  unfold session_user in *. intros sid row.
  destruct (app_handle_effect env req srv) as [|Hm Hp Hd Hu|row' Hl Hsel|name pw];
    cbn.
  - apply Hinv.
  - rewrite lookup_delete. case_decide; [done|]. apply Hinv.
  - rewrite lookup_insert. case_decide; [|apply Hinv].
    cbn. intros [= <-].
    apply (select_by_username_sound (body_username req)). rewrite Hsel. by left.
  - intros Hrow. apply List.in_or_app. left. by eapply Hinv.
Qed.

Lemma login_register_paths_differ p :
  route_match "/login" p = true -> route_match "/register" p = false.
Proof.
  intros H. apply route_match_cases in H; [|reflexivity].
  unfold route_match. destruct H as [-> | ->]; reflexivity.
Qed.

(** X6.  A POST [/login] that does not go through changes nothing on the
    server, whatever makes it fail: a client that was logged in stays
    logged in with the same user record. *)
Theorem failed_login_changes_nothing env req srv :
  method req = POST ->
  route_match "/login" (path req) = true ->
  ~ login_succeeds env req srv ->
  (app_handle env req srv).2 = srv.
Proof.
  intros Hm Hp Hfail.
  destruct (app_handle_effect env req srv) as [|Hget _ _ _|row Hl _|name pw _ Hreg].
  - done.
  - rewrite Hm in Hget. vm_compute in Hget. done.
  - done.
  - rewrite (login_register_paths_differ _ Hp) in Hreg. done.
Qed.

(** ** Every answer the routes give *)

Lemma app_handle_replies env req srv : possible_reply (app_handle env req srv).1.
Proof.
  remember (app_handle env req srv).1 as r eqn:Hr.
  unfold app_handle in Hr.
  destruct (is_public req) eqn:Hpub.
  - destruct (dispatch_public_routes env req Hpub)
      as [(_ & [E|[E|E]])|[(Hm & Hp & E)|(Hm & Hp & E)]];
      rewrite E in Hr; clear E Hpub; crush_routes; subst; constructor.
  - rewrite dispatch_gated in Hr by done.
    destruct (dispatch_gated_routes env req)
      as [E|[E|[(Hm & Hp & E)|[E|[E|E]]]]]; rewrite E in Hr; clear E.
    all: crush_routes; subst; constructor.
Qed.

(** X7.  No error escapes the routes: whatever the database, the hasher
    and the session store throw, a request is answered by a handler or
    left to the framework's final handler, never ended by an uncaught
    exception. *)
Theorem no_uncaught_exception env req srv e :
  (app_handle env req srv).1 <> Crashed e.
Proof.
  intros Heq. pose proof (app_handle_replies env req srv) as H.
  rewrite Heq in H. inversion H.
Qed.

(** X8.  The 401 reply of the profile handler is never sent: the handler
    runs only behind the gate, where the session holds a user record.
    No request, in any state of the server, is answered with status 401
    or with the text [Not authenticated]. *)
Theorem profile_401_unreachable env req srv status r :
  (app_handle env req srv).1 = Replied status r ->
  r <> Send "Not authenticated" /\ status <> 401.
Proof.
  intros Heq. pose proof (app_handle_replies env req srv) as H.
  rewrite Heq in H. inversion H; subst; by split.
Qed.

(** ** The public pages and the pages behind the gate *)

Lemma dispatch_get_pages env req :
  method_match GET (method req) = true ->
  (route_match "/" (path req) = true -> dispatch app_stack env req = get_root env req)
  /\ (route_match "/login" (path req) = true ->
      dispatch app_stack env req = get_login env req)
  /\ (route_match "/register" (path req) = true ->
      dispatch app_stack env req = get_register env req).
Proof.
  intros Hm. unfold app_stack. cbn [dispatch]. rewrite Hm.
  split; [|split]; intros Hp.
  - by rewrite Hp.
  - settle_path Hp; reflexivity.
  - settle_path Hp; reflexivity.
Qed.

(** X9.  The landing route and the login and registration pages are
    served to every client, with or without a user record in its
    session, and serving them changes nothing: GET [/] redirects to
    [/login], GET [/login] and GET [/register] render their pages. *)
Theorem public_pages_open env req srv :
  method_match GET (method req) = true ->
  (route_match "/" (path req) = true ->
   app_handle env req srv = (Replied 302 (Redirect "/login"), srv))
  /\ (route_match "/login" (path req) = true ->
      app_handle env req srv = (Replied 200 (Render "pages/login" []), srv))
  /\ (route_match "/register" (path req) = true ->
      app_handle env req srv = (Replied 200 (Render "pages/register" []), srv)).
Proof.
  intros Hm. destruct (dispatch_get_pages env req Hm) as (Hroot & Hlogin & Hreg).
  unfold app_handle.
  split; [|split]; intros Hp.
  - rewrite Hroot by done. cbn. rewrite decide_True by done. by destruct srv.
  - rewrite Hlogin by done. cbn. rewrite decide_True by done. by destruct srv.
  - rewrite Hreg by done. cbn. rewrite decide_True by done. by destruct srv.
Qed.

Lemma dispatch_discover env req :
  method_match GET (method req) = true ->
  route_match "/discover" (path req) = true ->
  dispatch app_stack env req = auth env req (auth env req (get_discover env req)).
Proof.
  intros Hm Hp. rewrite dispatch_gated by by apply discover_not_public.
  f_equal. unfold gated_stack. cbn [dispatch]. rewrite Hm.
  settle_path Hp; reflexivity.
Qed.

(** X10.  A GET [/discover] from a client whose session holds a user
    record passes both gates and renders the discover page, without
    locals and without changing the server. *)
Theorem discover_authenticated env req srv row :
  method_match GET (method req) = true ->
  route_match "/discover" (path req) = true ->
  user (load_session req srv) = Some row ->
  app_handle env req srv = (Replied 200 (Render "pages/discover" []), srv).
Proof.
  intros Hm Hp Hu. unfold app_handle. rewrite dispatch_discover by done.
  erewrite !auth_passes by (cbn; eauto).
  unfold_handlers. cbn. unfold end_of_response. cbn.
  rewrite decide_True by done. by destruct srv.
Qed.

(** X11.  Behind the gate only GET (or HEAD) of [/discover], [/logout]
    and [/profile] is handled: any other request of a client whose
    session holds a user record, a POST to [/logout] for one, is left to
    the framework's final handler and changes nothing, so it does not log
    the client out.  (OPTIONS requests are set apart: the router answers
    some of them itself.) *)
Theorem authenticated_unmatched env req srv row :
  method req <> OPTIONS ->
  is_public req = false ->
  user (load_session req srv) = Some row ->
  method_match GET (method req)
  && (route_match "/discover" (path req)
      || route_match "/logout" (path req)
      || route_match "/profile" (path req)) = false ->
  app_handle env req srv = (Unanswered, srv).
Proof.
  intros _ Hpub Hu Hno. unfold app_handle. rewrite dispatch_gated by done.
  erewrite auth_passes by (cbn; eauto).
  unfold gated_stack. cbn [dispatch].
  assert (method_match GET (method req) && route_match "/discover" (path req) = false
          /\ method_match GET (method req) && route_match "/logout" (path req) = false
          /\ method_match GET (method req) && route_match "/profile" (path req) = false)
    as (-> & -> & ->).
  { destruct (method_match GET (method req)); [|done]. cbn in *.
    apply orb_false_iff in Hno as [Hno ?]. apply orb_false_iff in Hno as [? ?]. done. }
  destruct (use_match "/discover" (path req)).
  - erewrite auth_passes by (cbn; eauto). cbn.
    unfold end_of_response. cbn. rewrite decide_True by done. by destruct srv.
  - cbn. unfold end_of_response. cbn. rewrite decide_True by done. by destruct srv.
Qed.

(** [auth] in front of [auth] is [auth]. *)
Lemma auth_twice env req next c :
  auth env req (auth env req next) c = auth env req next c.
Proof.
  unfold auth at 1. unfold bind, req_session_user.
  destruct (session c) as [s|] eqn:Hs.
  - destruct (user s) as [row|] eqn:Hu; [done|].
    unfold auth, bind, req_session_user. by rewrite Hs, Hu.
  - unfold auth, bind, req_session_user. by rewrite Hs.
Qed.

(** X12.  The second mount of the gate, [app.use('/discover', auth)], is
    redundant: with or without it every request is handled the same way
    in every context. *)
Theorem second_gate_redundant env req c :
  dispatch app_stack env req c = dispatch app_stack_single_gate env req c.
Proof.
  unfold app_stack, app_stack_single_gate. cbn [dispatch].
  repeat match goal with
  | |- context [if ?b then _ else _] =>
    match b with
    | andb (method_match _ (method req)) (route_match ?p (path req)) =>
      lazymatch p with
      | "/discover" => fail
      | "/logout" => fail
      | "/profile" => fail
      | _ => destruct b; [reflexivity|]
      end
    end
  end.
  change (use_match "/" (path req)) with true. cbv iota.
  destruct (use_match "/discover" (path req)); [apply auth_twice|reflexivity].
Qed.

(** ** Requests in sequence *)

Lemma register_success env req srv name pw :
  method req = POST ->
  route_match "/register" (path req) = true ->
  hash_error env = None -> body_password req = Some pw ->
  db_error env = None -> body_username req = Some name ->
  select_by_username (Some name) (table srv) = [] ->
  app_handle env req srv
  = (Replied 302 (Redirect "/login"),
     mkServer (table srv ++ [mkUserRow name (hash_fn pw 10 (salt env))])%list
       (sessions srv)).
Proof.
  intros Hm Hp Hhe Hpw Hdb Hname Hsel.
  unfold app_handle. rewrite dispatch_post_register by done.
  unfold_handlers. cbn -[select_by_username]. rewrite Hhe, Hpw, Hdb, Hname.
  cbn -[select_by_username]. rewrite Hsel. cbn.
  unfold end_of_response. cbn. rewrite decide_True by reflexivity. reflexivity.
Qed.

Lemma select_by_username_new name hash rows :
  select_by_username (Some name) rows = [] ->
  select_by_username (Some name) (rows ++ [mkUserRow name hash]) = [mkUserRow name hash].
Proof.
  unfold select_by_username. intros Hnil.
  rewrite List.filter_app, Hnil. cbn. by rewrite String.eqb_refl.
Qed.

(** X13.  Registering and then logging in with the same username and
    password, when the hasher verifies a password against its own hash:
    the registration of a new username is answered with the redirect to
    [/login], and the login that follows is answered with the redirect
    to [/discover] and binds the new row to the session. *)
Theorem register_then_login env1 env2 req1 req2 srv name pw :
  method req1 = POST -> route_match "/register" (path req1) = true ->
  body_username req1 = Some name -> body_password req1 = Some pw ->
  hash_error env1 = None -> db_error env1 = None ->
  select_by_username (Some name) (table srv) = [] ->
  method req2 = POST -> route_match "/login" (path req2) = true ->
  body_username req2 = Some name -> body_password req2 = Some pw ->
  db_error env2 = None -> compare_error env2 = None ->
  compare_fn pw (hash_fn pw 10 (salt env1)) = true ->
  (app_handle env1 req1 srv).1 = Replied 302 (Redirect "/login")
  /\ app_handle env2 req2 (app_handle env1 req1 srv).2
     = (Replied 302 (Redirect "/discover"),
        mkServer (table srv ++ [mkUserRow name (hash_fn pw 10 (salt env1))])%list
          (<[sessionID req2 := mkSession (Some (mkUserRow name (hash_fn pw 10 (salt env1))))]>
             (sessions srv))).
Proof.
  intros Hm1 Hp1 Hn1 Hpw1 Hhe Hdb1 Hsel Hm2 Hp2 Hn2 Hpw2 Hdb2 Hce Hrt.
  rewrite (register_success env1 req1 srv name pw) by done.
  split; [done|]. cbn [snd].
  rewrite (login_success env2 req2 _ (mkUserRow name (hash_fn pw 10 (salt env1))) pw);
    [reflexivity|done|done|done| |done|done|done].
  cbn. rewrite Hn2. by apply select_by_username_new.
Qed.

Lemma load_session_insert req srv sid s tbl :
  sessionID req = sid ->
  load_session req (mkServer tbl (<[sid := s]> (sessions srv))) = s.
Proof. intros <-. unfold load_session. cbn. by rewrite lookup_insert_eq. Qed.

Lemma load_session_delete req srv sid tbl :
  sessionID req = sid ->
  load_session req (mkServer tbl (delete sid (sessions srv))) = new_session.
Proof. intros <-. unfold load_session. cbn. by rewrite lookup_delete_eq. Qed.

Lemma profile_page env req srv row :
  method_match GET (method req) = true ->
  route_match "/profile" (path req) = true ->
  user (load_session req srv) = Some row ->
  app_handle env req srv
  = (Replied 200 (Render "pages/profile" [("username", VStr (username row))]), srv).
Proof.
  intros Hm Hp Hu. unfold app_handle. rewrite dispatch_profile by done.
  erewrite auth_passes by (cbn; eauto).
  unfold_handlers. cbn. rewrite Hu. cbn. unfold end_of_response. cbn.
  rewrite decide_True by done. by destruct srv.
Qed.

Lemma logout_success env req srv row :
  method_match GET (method req) = true ->
  route_match "/logout" (path req) = true ->
  user (load_session req srv) = Some row ->
  destroy_error env = None ->
  app_handle env req srv
  = (Replied 200 logout_page,
     mkServer (table srv) (delete (sessionID req) (sessions srv))).
Proof.
  intros Hm Hp Hu He. unfold app_handle. rewrite dispatch_logout by done.
  erewrite auth_passes by (cbn; eauto).
  unfold_handlers. cbn. rewrite He. cbn. reflexivity.
Qed.

(** X14.  After a login that goes through, a GET [/profile] under the
    same session id renders the profile page with the username that was
    submitted to the login, and changes nothing. *)
Theorem login_then_profile env1 env2 req1 req2 srv row name pw :
  method req1 = POST -> route_match "/login" (path req1) = true ->
  body_username req1 = Some name -> body_password req1 = Some pw ->
  db_error env1 = None -> compare_error env1 = None ->
  select_by_username (Some name) (table srv) = [row] ->
  compare_fn pw (password row) = true ->
  method_match GET (method req2) = true -> route_match "/profile" (path req2) = true ->
  sessionID req2 = sessionID req1 ->
  app_handle env2 req2 (app_handle env1 req1 srv).2
  = (Replied 200 (Render "pages/profile" [("username", VStr name)]),
     (app_handle env1 req1 srv).2).
Proof.
  intros Hm1 Hp1 Hn Hpw Hdb Hce Hsel Hcmp Hm2 Hp2 Hsid.
  assert (username row = name) as Hname.
  { destruct (select_by_username_sound (Some name) row (table srv)) as [_ [= ->]];
      [rewrite Hsel; by left|done]. }
  rewrite (login_success env1 req1 srv row pw) by (rewrite ?Hn; done).
  cbn [snd]. rewrite (profile_page env2 req2 _ row); [by rewrite Hname|done|done|].
  by rewrite (load_session_insert req2 srv (sessionID req1)).
Qed.

(** X15.  Logout ends the session for the gated routes: after a logout
    that goes through, every request under the same session id that no
    public route takes ([/profile], [/discover], a second [/logout]) is
    redirected to [/login]. *)
Theorem logout_then_gated env1 env2 req1 req2 srv row :
  method_match GET (method req1) = true -> route_match "/logout" (path req1) = true ->
  user (load_session req1 srv) = Some row ->
  destroy_error env1 = None ->
  is_public req2 = false ->
  sessionID req2 = sessionID req1 ->
  app_handle env2 req2 (app_handle env1 req1 srv).2
  = (Replied 302 (Redirect "/login"), (app_handle env1 req1 srv).2).
Proof.
  intros Hm Hp Hu He Hpub Hsid.
  rewrite (logout_success env1 req1 srv row) by done. cbn [snd].
  apply gated_unauthenticated; [done|].
  by rewrite (load_session_delete req2 srv (sessionID req1)).
Qed.

(** X16.  Login and logout undo each other: for a client with no stored
    session, a login that goes through followed by a logout under the
    same session id that the store completes leaves the server exactly
    as it was before the login. *)
Theorem login_logout_round_trip env1 env2 req1 req2 srv row pw :
  sessions srv !! sessionID req1 = None ->
  method req1 = POST -> route_match "/login" (path req1) = true ->
  db_error env1 = None -> compare_error env1 = None ->
  select_by_username (body_username req1) (table srv) = [row] ->
  body_password req1 = Some pw ->
  compare_fn pw (password row) = true ->
  method_match GET (method req2) = true -> route_match "/logout" (path req2) = true ->
  destroy_error env2 = None ->
  sessionID req2 = sessionID req1 ->
  (app_handle env2 req2 (app_handle env1 req1 srv).2).2 = srv.
Proof.
  intros Hnone Hm1 Hp1 Hdb Hce Hsel Hpw Hcmp Hm2 Hp2 He Hsid.
  rewrite (login_success env1 req1 srv row pw) by done. cbn [snd].
  rewrite (logout_success env2 req2 _ row); [|done|done| |done].
  - cbn. rewrite Hsid, delete_insert_id by done. by destruct srv.
  - by rewrite (load_session_insert req2 srv (sessionID req1)).
Qed.

(** X17.  For a client whose session holds no user record every URL
    outside the five public routes leads to the login page: the request is
    redirected to [/login] whatever its method and path, and no request
    of such a client is left unanswered by the routes. *)
Theorem anonymous_never_unanswered env req srv :
  user (load_session req srv) = None ->
  (app_handle env req srv).1 <> Unanswered
  /\ (is_public req = false ->
      app_handle env req srv = (Replied 302 (Redirect "/login"), srv)).
Proof.
  intros Hu. split.
  - intros Heq. pose proof (anonymous_replies env req srv Hu) as H.
    rewrite Heq in H. inversion H.
  - intros Hpub. by apply gated_unauthenticated.
Qed.

End Properties.

(** * The properties on the small world *)

Lemma discover_gate_idempotent_witness :
  run (hasher := demo_hasher)
    (map (fun env => (env, anonymous_discover_request)) [calm; calm; calm]) alice_server
  = (map (fun _ => Replied 302 (Redirect "/login")) [calm; calm; calm], alice_server).
Proof.
  apply (discover_gate_idempotent (hasher := demo_hasher)
           calm anonymous_discover_request alice_server [calm; calm; calm]);
    reflexivity.
Defined.

Lemma logout_behind_gate_witness :
  app_handle (hasher := demo_hasher) calm anonymous_logout_request alice_server
  = (Replied 302 (Redirect "/login"), alice_server).
Proof.
  apply (logout_behind_gate (hasher := demo_hasher)
           calm anonymous_logout_request alice_server); reflexivity.
Defined.

Lemma profile_unauthenticated_witness :
  app_handle (hasher := demo_hasher) calm anonymous_profile_request alice_server
  = (Replied 302 (Redirect "/login"), alice_server).
Proof.
  apply (profile_unauthenticated (hasher := demo_hasher)
           calm anonymous_profile_request alice_server); reflexivity.
Defined.

(** C1, as the claim has it, fails: the client has no user record, and
    the answer to its GET [/profile] is the redirect, not the 401. *)
Lemma profile_401_counterexample :
  method_match GET (method anonymous_profile_request) = true
  /\ route_match "/profile" (path anonymous_profile_request) = true
  /\ user (load_session anonymous_profile_request alice_server) = None
  /\ (app_handle (hasher := demo_hasher) calm anonymous_profile_request alice_server).1
     = Replied 302 (Redirect "/login")
  /\ (app_handle (hasher := demo_hasher) calm anonymous_profile_request alice_server).1
     <> Replied 401 (Send "Not authenticated").
Proof. repeat split; try reflexivity. vm_compute. discriminate. Qed.

Lemma login_unknown_username_witness :
  app_handle (hasher := demo_hasher) calm
    (form POST "/login" (Some "bob") (Some "x") "s1") alice_server
  = (Replied 200
       (Render "pages/login"
          [("message", VStr "Username not found. Please register.");
           ("error", VBool true)]),
     alice_server).
Proof.
  apply (login_unknown_username (hasher := demo_hasher) calm
           (form POST "/login" (Some "bob") (Some "x") "s1") alice_server);
    reflexivity.
Defined.

Lemma login_wrong_password_view_witness :
  app_handle (hasher := demo_hasher) calm
    (form POST "/login" (Some "alice") (Some "wrong") "s1") alice_server
  = (Replied 200
       (Render "login"
          [("message", VStr "Incorrect username or password."); ("error", VBool true)]),
     alice_server).
Proof.
  apply (login_wrong_password_view (hasher := demo_hasher) calm
           (form POST "/login" (Some "alice") (Some "wrong") "s1") alice_server
           alice_row "wrong");
    reflexivity.
Defined.

Lemma login_unexpected_failure_witness :
  app_handle (hasher := demo_hasher) db_down
    (form POST "/login" (Some "alice") (Some "pw1") "s1") alice_server
  = (Replied 200 login_failure_page, alice_server).
Proof.
  apply (login_unexpected_failure (hasher := demo_hasher) db_down
           (form POST "/login" (Some "alice") (Some "pw1") "s1") alice_server);
    [reflexivity | reflexivity |].
  left. exists "connect ECONNREFUSED". reflexivity.
Defined.

Lemma login_binds_session_witness :
  app_handle (hasher := demo_hasher) calm
    (form POST "/login" (Some "alice") (Some "pw1") "s1") alice_server
  = (Replied 302 (Redirect "/discover"), alice_logged_in)
  /\ session_user alice_logged_in "s1" = Some alice_row.
Proof.
  split; [|reflexivity].
  change alice_logged_in
    with (mkServer (table alice_server)
            (<["s1" := mkSession (Some alice_row)]> (sessions alice_server))).
  apply (login_binds_session (hasher := demo_hasher) calm
           (form POST "/login" (Some "alice") (Some "pw1") "s1") alice_server
           alice_row "pw1");
    reflexivity.
Defined.

Lemma register_redirects_witness :
  app_handle (hasher := demo_hasher) calm
    (form POST "/register" (Some "alice") (Some "pw1") "s1") empty_server
  = (Replied 302 (Redirect "/login"), alice_server)
  /\ app_handle (hasher := demo_hasher) calm
       (form POST "/register" (Some "alice") (Some "pw2") "s1") alice_server
     = (Replied 302 (Redirect "/register"), alice_server).
Proof.
  split.
  - apply (register_redirects (hasher := demo_hasher) calm
             (form POST "/register" (Some "alice") (Some "pw1") "s1") empty_server
             eq_refl eq_refl);
      reflexivity.
  - apply (proj1 (proj2 (proj2
             (register_redirects (hasher := demo_hasher) calm
                (form POST "/register" (Some "alice") (Some "pw2") "s1") alice_server
                eq_refl eq_refl))) "alice" alice_row);
      [reflexivity | left; reflexivity | reflexivity].
Defined.

(** C5, as the claim has it, fails: this registration hashes and
    inserts, and is answered with the redirect to [/login], but the body
    a client that accepts plain text reads is not empty. *)
Lemma register_no_body_counterexample :
  method register_alice = POST
  /\ route_match "/register" (path register_alice) = true
  /\ app_handle (hasher := demo_hasher) calm register_alice empty_server
     = (Replied 302 (Redirect "/login"), alice_server)
  /\ body_for_text_client register_alice
       (app_handle (hasher := demo_hasher) calm register_alice empty_server).1
     = Some "Found. Redirecting to /login"
  /\ body_for_text_client register_alice
       (app_handle (hasher := demo_hasher) calm register_alice empty_server).1
     <> Some "".
Proof. repeat split; try reflexivity. vm_compute. discriminate. Qed.

Lemma logout_authenticated_witness :
  app_handle (hasher := demo_hasher) calm (form GET "/logout" None None "s1") alice_logged_in
  = (Replied 200 logout_page, mkServer [alice_row] (delete "s1" (sessions alice_logged_in)))
  /\ app_handle (hasher := demo_hasher) store_down
       (form GET "/logout" None None "s1") alice_logged_in
     = (Replied 500 (Send "Could not log out."), alice_logged_in).
Proof.
  split.
  - apply (logout_authenticated (hasher := demo_hasher) calm
             (form GET "/logout" None None "s1") alice_logged_in alice_row
             eq_refl eq_refl eq_refl).
    reflexivity.
  - apply (proj1 (logout_authenticated (hasher := demo_hasher) store_down
             (form GET "/logout" None None "s1") alice_logged_in alice_row
             eq_refl eq_refl eq_refl) "store unavailable").
    reflexivity.
Defined.

(** C7, as the claim has it, fails: the store would destroy the session,
    but the answer to this GET [/logout] is the gate's redirect, neither
    the logout page nor the 500 reply, and the server is as it was. *)
Lemma logout_every_request_counterexample :
  method_match GET (method anonymous_logout_request) = true
  /\ route_match "/logout" (path anonymous_logout_request) = true
  /\ destroy_error calm = None
  /\ app_handle (hasher := demo_hasher) calm anonymous_logout_request alice_server
     = (Replied 302 (Redirect "/login"), alice_server)
  /\ (app_handle (hasher := demo_hasher) calm anonymous_logout_request alice_server).1
     <> Replied 200 logout_page
  /\ (app_handle (hasher := demo_hasher) calm anonymous_logout_request alice_server).1
     <> Replied 500 (Send "Could not log out.").
Proof. repeat split; try reflexivity; vm_compute; discriminate. Qed.

Lemma alice_sessions_same_public : same_public alice_logged_in alice_logged_in_other_hash.
Proof.
  split; [reflexivity|]. intros sid. cbn.
  rewrite !lookup_singleton. case_decide; reflexivity.
Qed.

Lemma session_hash_not_rendered_witness :
  (app_handle (hasher := demo_hasher) calm (form GET "/profile" None None "s1")
     alice_logged_in).1
  = Replied 200 (Render "pages/profile" [("username", VStr "alice")])
  /\ (app_handle (hasher := demo_hasher) calm (form GET "/profile" None None "s1")
        alice_logged_in_other_hash).1
     = (app_handle (hasher := demo_hasher) calm (form GET "/profile" None None "s1")
          alice_logged_in).1.
Proof.
  pose proof (session_hash_not_rendered (hasher := demo_hasher) calm
                (form GET "/profile" None None "s1")
                alice_logged_in alice_logged_in_other_hash alice_row
                eq_refl eq_refl eq_refl alice_sessions_same_public) as (H1 & H2 & _).
  split; [exact H1 | exact H2].
Defined.

(** * The further properties on the small world *)

Lemma usernames_stay_unique_witness :
  List.NoDup
    (List.map username
       (table (run (hasher := demo_hasher)
                 [(calm, register_alice); (calm, register_alice)] empty_server).2)).
Proof.
  apply (usernames_stay_unique (hasher := demo_hasher)
           [(calm, register_alice); (calm, register_alice)] empty_server).
  apply List.NoDup_nil.
Defined.

Lemma session_isolation_witness :
  sessions (run (hasher := demo_hasher)
              [(calm, form GET "/logout" None None "s2");
               (calm, form POST "/login" (Some "alice") (Some "pw1") "s2")]
              alice_logged_in).2 !! "s1"
  = sessions alice_logged_in !! "s1".
Proof.
  apply (session_isolation (hasher := demo_hasher)).
  repeat constructor; cbn; discriminate.
Defined.

Lemma session_removed_only_by_logout_witness :
  sessionID logout_s1 = "s1"
  /\ method_match GET (method logout_s1) = true
  /\ route_match "/logout" (path logout_s1) = true
  /\ destroy_error calm = None
  /\ user (mkSession (Some alice_row)) <> None.
Proof.
  apply (session_removed_only_by_logout (hasher := demo_hasher)
           calm logout_s1 alice_logged_in "s1" (mkSession (Some alice_row)));
    reflexivity.
Defined.

Lemma sessions_hold_registered_rows_witness :
  List.In alice_row
    (table (run (hasher := demo_hasher) [(calm, login_alice)] alice_server).2).
Proof.
  apply (sessions_hold_registered_rows (hasher := demo_hasher)
           [(calm, login_alice)] alice_server) with (sid := "s1").
  - intros sid row. unfold session_user. cbn. rewrite lookup_empty. discriminate.
  - reflexivity.
Defined.

Lemma failed_login_changes_nothing_witness :
  (app_handle (hasher := demo_hasher) calm login_alice_wrong alice_logged_in).2
  = alice_logged_in.
Proof.
  apply (failed_login_changes_nothing (hasher := demo_hasher)
           calm login_alice_wrong alice_logged_in); [reflexivity | reflexivity |].
  intros (_ & _ & row & pw & _ & Hsel & _ & Hpw & Hcmp).
  vm_compute in Hsel, Hpw. injection Hsel as <-. injection Hpw as <-.
  vm_compute in Hcmp. discriminate.
Defined.

Lemma profile_401_unreachable_witness :
  Redirect "/login" <> Send "Not authenticated" /\ 302 <> 401.
Proof.
  apply (profile_401_unreachable (hasher := demo_hasher)
           calm anonymous_profile_request alice_server 302 (Redirect "/login")).
  reflexivity.
Defined.

Lemma public_pages_open_witness :
  app_handle (hasher := demo_hasher) calm (form GET "/Login/" None None "s1") alice_server
  = (Replied 200 (Render "pages/login" []), alice_server).
Proof.
  apply (public_pages_open (hasher := demo_hasher)
           calm (form GET "/Login/" None None "s1") alice_server); reflexivity.
Defined.

Lemma discover_authenticated_witness :
  app_handle (hasher := demo_hasher) calm (form GET "/discover" None None "s1")
    alice_logged_in
  = (Replied 200 (Render "pages/discover" []), alice_logged_in).
Proof.
  apply (discover_authenticated (hasher := demo_hasher)
           calm (form GET "/discover" None None "s1") alice_logged_in alice_row);
    reflexivity.
Defined.

Lemma authenticated_unmatched_witness :
  app_handle (hasher := demo_hasher) calm (form POST "/logout" None None "s1")
    alice_logged_in
  = (Unanswered, alice_logged_in).
Proof.
  apply (authenticated_unmatched (hasher := demo_hasher)
           calm (form POST "/logout" None None "s1") alice_logged_in alice_row);
    [discriminate | reflexivity..].
Defined.

Lemma register_then_login_witness :
  (app_handle (hasher := demo_hasher) calm register_alice empty_server).1
  = Replied 302 (Redirect "/login")
  /\ app_handle (hasher := demo_hasher) calm login_alice
       (app_handle (hasher := demo_hasher) calm register_alice empty_server).2
     = (Replied 302 (Redirect "/discover"), alice_logged_in).
Proof.
  apply (register_then_login (hasher := demo_hasher)
           calm calm register_alice login_alice empty_server "alice" "pw1");
    reflexivity.
Defined.

Lemma login_then_profile_witness :
  app_handle (hasher := demo_hasher) calm profile_s1
    (app_handle (hasher := demo_hasher) calm login_alice alice_server).2
  = (Replied 200 (Render "pages/profile" [("username", VStr "alice")]),
     (app_handle (hasher := demo_hasher) calm login_alice alice_server).2).
Proof.
  apply (login_then_profile (hasher := demo_hasher)
           calm calm login_alice profile_s1 alice_server alice_row "alice" "pw1");
    reflexivity.
Defined.

Lemma logout_then_gated_witness :
  app_handle (hasher := demo_hasher) calm profile_s1
    (app_handle (hasher := demo_hasher) calm logout_s1 alice_logged_in).2
  = (Replied 302 (Redirect "/login"),
     (app_handle (hasher := demo_hasher) calm logout_s1 alice_logged_in).2).
Proof.
  apply (logout_then_gated (hasher := demo_hasher)
           calm calm logout_s1 profile_s1 alice_logged_in alice_row);
    reflexivity.
Defined.

Lemma login_logout_round_trip_witness :
  (app_handle (hasher := demo_hasher) calm logout_s1
     (app_handle (hasher := demo_hasher) calm login_alice alice_server).2).2
  = alice_server.
Proof.
  apply (login_logout_round_trip (hasher := demo_hasher)
           calm calm login_alice logout_s1 alice_server alice_row "pw1");
    reflexivity.
Defined.

Lemma anonymous_never_unanswered_witness :
  (app_handle (hasher := demo_hasher) calm (form PUT "/no/such/page" None None "s1")
     alice_server).1
  <> Unanswered.
Proof.
  apply (anonymous_never_unanswered (hasher := demo_hasher)
           calm (form PUT "/no/such/page" None None "s1") alice_server).
  reflexivity.
Defined.
